(** * Web3 Promotion Hub bot ([zepp.py]): shallow embedding and verified properties

    The bot is a set of asynchronous handlers around an SQLite file, the
    Telegram Bot API and one HTTP endpoint.  The embedding keeps that
    shape:

    - Python values ([str], [int], [dict], exceptions) are modelled in
      module [Py]; a [str] is held as the bytes of its UTF-8 encoding;
    - the SQLite file is a record of tables ([DB]); a statement is a
      function on it that may raise, and [with sqlite3.connect(...)] is a
      combinator that commits on normal exit and rolls back on an
      exception;
    - everything outside the process (Telegram, CoinGecko, the clock) is an
      oracle record [Env]; each interaction is appended to a trace;
    - a handler is a computation in a state-and-exception monad [M] over
      the [World] (database, per-user dictionaries, trace, log). *)

From Stdlib Require Import ZArith Lia Bool Ascii String DecimalString DecimalZ DecimalPos Sorted.
From stdpp Require Import gmap strings list.

Local Open Scope string_scope.
Local Open Scope Z_scope.
Local Open Scope list_scope.

(** ** Python values *)

Module Py.

(** Subclasses of [requests.RequestException] that the trends handler can
    meet. *)
Inductive request_error :=
| Timeout
| ConnectionError
| HTTPError (status : Z)
| InvalidJSON.

(** Exceptions, all of them subclasses of [Exception]. *)
Inductive exn :=
| IntegrityError
| RequestException (k : request_error)
| TelegramError (description : string)
| ValueError
| KeyError (key : string)
| AttributeError
| TypeError.

Definition is_IntegrityError (e : exn) : bool :=
  match e with IntegrityError => true | _ => false end.

Definition is_RequestException (e : exn) : bool :=
  match e with RequestException _ => true | _ => false end.

(** Outcome of evaluating an expression or a statement. *)
Inductive result (A : Type) :=
| Ok (a : A)
| Raise (e : exn).
Arguments Ok {A} a.
Arguments Raise {A} e.

(** *** [str] *)

Definition nl : string := String (ascii_of_nat 10) EmptyString.
Definition dquote : string := String (ascii_of_nat 34) EmptyString.

(** [s.startswith(p)] *)
Definition startswith (s p : string) : bool := String.prefix p s.

(** A character below U+0080 is one byte. *)
Definition is_ascii_char (c : ascii) : bool := (nat_of_ascii c <? 128)%nat.

Fixpoint is_ascii (s : string) : bool :=
  match s with
  | EmptyString => true
  | String c r => is_ascii_char c && is_ascii r
  end.

(** The second and later bytes of a character beyond U+007F. *)
Definition is_continuation (c : ascii) : bool :=
  let n := nat_of_ascii c in ((128 <=? n) && (n <? 192))%nat.

(** [s[n:]] for a string whose first [n] characters are ASCII, as they are
    behind the prefix tests of [button_handler]. *)
Fixpoint slice_from (n : nat) (s : string) : string :=
  match n, s with
  | O, _ => s
  | S _, EmptyString => EmptyString
  | S n', String _ r => slice_from n' r
  end.

(** [s[:n]]: the first [n] characters, each with all its bytes. *)
Fixpoint slice_to (n : nat) (s : string) : string :=
  match s with
  | EmptyString => EmptyString
  | String c r =>
      if is_continuation c then String c (slice_to n r)
      else match n with
           | O => EmptyString
           | S n' => String c (slice_to n' r)
           end
  end.

(** [sep.join(l)] *)
Definition join (sep : string) (l : list string) : string := String.concat sep l.

Definition upper_char (c : ascii) : ascii :=
  let n := nat_of_ascii c in
  if ((97 <=? n) && (n <=? 122))%nat then ascii_of_nat (n - 32) else c.

Fixpoint upper_ascii (s : string) : string :=
  match s with
  | EmptyString => EmptyString
  | String c r => String (upper_char c) (upper_ascii r)
  end.

(** [s.upper()].  On ASCII text only the letters a to z change.  What a
    text with other characters becomes is a matter of the interpreter's
    Unicode tables; [beyond] stands for them. *)
Definition upper (beyond : string -> string) (s : string) : string :=
  if is_ascii s then upper_ascii s else beyond s.

(** [str(z)] / the [{z}] field of an f-string, for an [int]. *)
Definition str_of_int (z : Z) : string := NilZero.string_of_int (Z.to_int z).

(** *** [int(s)] for a [str] argument, base 10

    On ASCII text: surrounding white space (tab, line feed, vertical tab,
    form feed, carriage return, space) is skipped, one sign is allowed, and
    digits may be grouped by single underscores.  Anything else raises
    [ValueError].  A text with other characters may still be a numeral,
    written with the decimal digits or the white space of another script;
    what [int] makes of it is a matter of the interpreter's Unicode tables,
    and [beyond] stands for them.

    The interpreter's bound on the length of a numeral (4300 digits unless
    configured otherwise, never under 640) is left out: the only texts
    read here are callback tags, which Telegram keeps to 64 bytes. *)

Definition is_space (c : ascii) : bool :=
  let n := nat_of_ascii c in
  (((9 <=? n) && (n <=? 13)) || (n =? 32))%nat.

Fixpoint lstrip (s : string) : string :=
  match s with
  | EmptyString => EmptyString
  | String c r => if is_space c then lstrip r else s
  end.

Fixpoint rstrip (s : string) : string :=
  match s with
  | EmptyString => EmptyString
  | String c r =>
      match rstrip r with
      | EmptyString => if is_space c then EmptyString else String c EmptyString
      | r' => String c r'
      end
  end.

Definition strip (s : string) : string := rstrip (lstrip s).

Definition digit_of (c : ascii) : option Z :=
  let n := nat_of_ascii c in
  if ((48 <=? n) && (n <=? 57))%nat then Some (Z.of_nat (n - 48)) else None.

Definition underscore : ascii := ascii_of_nat 95.
Definition plus_sign : ascii := ascii_of_nat 43.
Definition minus_sign : ascii := ascii_of_nat 45.

(** Digits with optional single underscores between them; the string
    must start with a digit and end with one. *)
Fixpoint int_digits (acc : Z) (s : string) : option Z :=
  match s with
  | EmptyString => None
  | String c rest =>
      match digit_of c with
      | None => None
      | Some d =>
          let acc' := 10 * acc + d in
          match rest with
          | EmptyString => Some acc'
          | String c' rest' =>
              if Ascii.eqb c' underscore then int_digits acc' rest'
              else int_digits acc' rest
          end
      end
  end.

Definition int_of_ascii (s : string) : result Z :=
  let t := strip s in
  let parsed :=
    match t with
    | EmptyString => None
    | String c r =>
        if Ascii.eqb c plus_sign then int_digits 0 r
        else if Ascii.eqb c minus_sign then Z.opp <$> int_digits 0 r
        else int_digits 0 t
    end in
  match parsed with
  | Some z => Ok z
  | None => Raise ValueError
  end.

Definition int_of_str (beyond : string -> result Z) (s : string) : result Z :=
  if is_ascii s then int_of_ascii s else beyond s.

(** *** [s.split()] on ASCII text

    The pieces between runs of white space; for [str.split] that is the
    white space of [int] and the four separators U+001C to U+001F. *)

Definition is_separator (c : ascii) : bool :=
  let n := nat_of_ascii c in
  (((9 <=? n) && (n <=? 13)) || ((28 <=? n) && (n <=? 32)))%nat.

(** [piece] holds the characters of the piece being read. *)
Fixpoint split_go (piece : string) (s : string) : list string :=
  match s with
  | EmptyString => match piece with EmptyString => [] | _ => [piece] end
  | String c r =>
      if is_separator c
      then match piece with EmptyString => split_go EmptyString r | _ => piece :: split_go EmptyString r end
      else split_go (piece +:+ String c EmptyString) r
  end.

Definition split_whitespace (s : string) : list string := split_go EmptyString s.

(** *** [dict] with insertion order, as an association list *)

Fixpoint dict_get {V : Type} (d : list (string * V)) (k : string) : option V :=
  match d with
  | [] => None
  | (k', v) :: d' => if String.eqb k' k then Some v else dict_get d' k
  end.

(** [d[k]] *)
Definition dict_index (d : list (string * string)) (k : string) : result string :=
  match dict_get d k with
  | Some v => Ok v
  | None => Raise (KeyError k)
  end.

(** [d.get(k, default)] *)
Definition dict_get_default (d : list (string * string)) (k default : string) : string :=
  match dict_get d k with
  | Some v => v
  | None => default
  end.

End Py.

Import Py.

(** ** The SQLite file [web3_bot.db]

    One record per table row; a nullable column is an [option].  Tables are
    lists in rowid (insertion) order. *)

Record Project := mkProject {
  p_id : Z;                          (* INTEGER PRIMARY KEY AUTOINCREMENT *)
  p_name : string;                   (* TEXT NOT NULL *)
  p_description : option string;     (* TEXT *)
  p_votes : option Z;                (* INTEGER DEFAULT 0 *)
  p_submitted_by : option Z;         (* INTEGER *)
  p_submission_date : option string  (* TIMESTAMP DEFAULT CURRENT_TIMESTAMP *)
}.

Record Service := mkService {
  s_id : Z;                          (* INTEGER PRIMARY KEY AUTOINCREMENT *)
  s_user_id : Z;                     (* INTEGER NOT NULL *)
  s_service_type : string;           (* TEXT NOT NULL *)
  s_description : option string;     (* TEXT *)
  s_price : option string;           (* TEXT *)
  s_is_active : option Z;            (* BOOLEAN DEFAULT 1 *)
  s_post_date : option string        (* TIMESTAMP DEFAULT CURRENT_TIMESTAMP *)
}.

Record Vote := mkVote {
  v_user_id : Z;                     (* INTEGER NOT NULL *)
  v_project_id : Z                   (* INTEGER NOT NULL; PRIMARY KEY (user_id, project_id) *)
}.

Record Wallet := mkWallet {
  w_coin : string;                   (* TEXT PRIMARY KEY *)
  w_address : string                 (* TEXT NOT NULL *)
}.

(** A file on which the four [CREATE TABLE] statements have run.
    [seq_services] is the [sqlite_sequence] entry that AUTOINCREMENT keeps:
    the largest rowid ever handed out. *)
Record DB := mkDB {
  projects : list Project;
  services : list Service;
  votes : list Vote;
  wallets : list Wallet;
  seq_services : Z
}.

(** A file as [init_db] may find it: each table exists or not. *)
Record DBFile := mkDBFile {
  f_projects : option (list Project);
  f_services : option (list Service);
  f_votes : option (list Vote);
  f_wallets : option (list Wallet);
  f_seq_services : Z
}.

(** What [sqlite3.connect] creates when the file is missing. *)
Definition new_file : DBFile := mkDBFile None None None None 0.

Definition file_of (d : DB) : DBFile :=
  mkDBFile (Some (projects d)) (Some (services d)) (Some (votes d))
           (Some (wallets d)) (seq_services d).

#[global] Instance Vote_eq_dec : EqDecision Vote.
Proof. solve_decision. Defined.

#[global] Instance Wallet_eq_dec : EqDecision Wallet.
Proof. solve_decision. Defined.

Module Sql.

(** [CREATE TABLE IF NOT EXISTS t (...)] *)
Definition create_table_if_not_exists {A : Type} (t : option (list A)) : list A :=
  match t with
  | Some rows => rows
  | None => []
  end.

(** The [executescript] of [init_db]. *)
Definition create_schema (f : DBFile) : DB :=
  mkDB (create_table_if_not_exists (f_projects f))
       (create_table_if_not_exists (f_services f))
       (create_table_if_not_exists (f_votes f))
       (create_table_if_not_exists (f_wallets f))
       (f_seq_services f).

Definition has_wallet (coin : string) (d : DB) : bool :=
  existsb (fun w => String.eqb (w_coin w) coin) (wallets d).

(** [INSERT INTO wallets VALUES (?, ?)] *)
Definition insert_wallet (d : DB) (w : Wallet) : result DB :=
  if has_wallet (w_coin w) d then Raise IntegrityError
  else Ok (mkDB (projects d) (services d) (votes d) (wallets d ++ [w]) (seq_services d)).

(** [conn.executemany(stmt, rows)] *)
Fixpoint executemany {A : Type} (stmt : DB -> A -> result DB) (d : DB) (rows : list A)
  : result DB :=
  match rows with
  | [] => Ok d
  | r :: rows' =>
      match stmt d r with
      | Ok d' => executemany stmt d' rows'
      | Raise e => Raise e
      end
  end.

(** [SELECT 1 FROM wallets LIMIT 1], then [fetchone()]. *)
Definition select_one_wallet (d : DB) : option Z :=
  match wallets d with
  | [] => None
  | _ :: _ => Some 1
  end.

(** [SELECT coin, address FROM wallets], then [fetchall()]. *)
Definition select_wallets (d : DB) : list (string * string) :=
  map (fun w => (w_coin w, w_address w)) (wallets d).

(** The integers a column holds and [sqlite3] binds to a parameter: signed
    64-bit.  Binding any other Python [int] raises [OverflowError] before
    the statement runs.  The statements below are modelled for parameters
    that fit, and what is proved of a successful INSERT is stated for such
    parameters. *)
Definition fits (z : Z) : Prop := - 2 ^ 63 <= z < 2 ^ 63.

Definition has_vote (user_id project_id : Z) (d : DB) : bool :=
  existsb (fun v => (v_user_id v =? user_id) && (v_project_id v =? project_id)) (votes d).

(** [INSERT INTO votes (user_id, project_id) VALUES (?, ?)] for ids that
    fit: the primary key rejects a pair that is already there. *)
Definition insert_vote (d : DB) (user_id project_id : Z) : result DB :=
  if has_vote user_id project_id d then Raise IntegrityError
  else Ok (mkDB (projects d) (services d) (votes d ++ [mkVote user_id project_id])
                (wallets d) (seq_services d)).

Definition bump (project_id : Z) (p : Project) : Project :=
  if p_id p =? project_id
  then mkProject (p_id p) (p_name p) (p_description p) (Z.add 1 <$> p_votes p)
                 (p_submitted_by p) (p_submission_date p)
  else p.

(** [UPDATE projects SET votes = votes + 1 WHERE id = ?]; [NULL + 1] is
    [NULL]. *)
Definition increment_votes (d : DB) (project_id : Z) : DB :=
  mkDB (map (bump project_id) (projects d)) (services d) (votes d) (wallets d)
       (seq_services d).

(** The rowid AUTOINCREMENT picks: one more than the largest rowid that
    is or ever was in the table, as long as that fits. *)
Definition next_service_id (d : DB) : Z :=
  1 + fold_right Z.max (seq_services d) (map s_id (services d)).

(** [INSERT INTO services (user_id, service_type, description) VALUES (?, ?, ?)]
    for a user id and a next rowid that fit; the remaining columns take
    their defaults. *)
Definition insert_service (d : DB) (user_id : Z) (service_type description : string)
           (current_timestamp : string) : DB :=
  let i := next_service_id d in
  mkDB (projects d)
       (services d ++ [mkService i user_id service_type (Some description) None (Some 1)
                                 (Some current_timestamp)])
       (votes d) (wallets d) i.

(** [a < b] on a nullable integer column: NULL sorts below every integer. *)
Definition votes_lt (a b : option Z) : bool :=
  match a, b with
  | None, None => false
  | None, Some _ => true
  | Some _, None => false
  | Some x, Some y => x <? y
  end.

Fixpoint insert_desc (p : Project) (l : list Project) : list Project :=
  match l with
  | [] => [p]
  | q :: l' => if votes_lt (p_votes p) (p_votes q) then q :: insert_desc p l' else p :: l
  end.

(** [SELECT id, name, votes FROM projects ORDER BY votes DESC LIMIT 10].
    SQL leaves the order of rows with equal votes open; here they stay in
    table order. *)
Definition select_top_projects (d : DB) : list (Z * string * option Z) :=
  map (fun p => (p_id p, p_name p, p_votes p))
      (take 10 (fold_right insert_desc [] (projects d))).

End Sql.

(** ** [init_db] *)

Definition seed_wallets : list Wallet :=
  [ mkWallet "BTC" "1A1zP1eP5QGefi2DMPTfTL5SLmv7DivfNa";
    mkWallet "ETH" "0x742d35Cc6634C0532925a3b844Bc454e4438f44e" ].

(** The schema script is committed statement by statement; the seeding runs
    in the connection's transaction, so an exception there would leave the
    file with the schema and without the seeds, and leave [init_db]. *)
Definition init_db (f : DBFile) : result DB :=
  let d := Sql.create_schema f in
  match Sql.select_one_wallet d with
  | None => Sql.executemany Sql.insert_wallet d seed_wallets
  | Some _ => Ok d
  end.

(** ** Telegram and HTTP data *)

Record Button := mkButton {
  btn_text : string;
  btn_callback_data : string
}.

(** The rows of an [InlineKeyboardMarkup]. *)
Definition Keyboard : Type := list (list Button).

Record CallbackQuery := mkCallbackQuery {
  cq_id : string;
  cq_data : string;
  cq_from_user : Z
}.

Record Message := mkMessage {
  msg_chat_id : Z;
  msg_text : string
}.

(** An [Update]: the optional attributes the handlers read. *)
Record Update := mkUpdate {
  upd_message : option Message;
  upd_callback_query : option CallbackQuery;
  upd_effective_user : option Z
}.

(** The handler's [context]: the user whose [user_data] dictionary it
    carries, and the command arguments ([None] counts as empty). *)
Record Context := mkContext {
  ctx_user_id : Z;
  ctx_args : list string
}.

(** Requests sent to the Bot API. *)
Inductive api_call :=
| AnswerCallbackQuery (q : CallbackQuery)
| EditMessageText (q : CallbackQuery) (text : string) (markup : option Keyboard)
| SendMessage (chat_id : Z) (text : string) (markup : option Keyboard)
              (parse_mode : option string).

(** Decoded JSON; a number keeps its literal. *)
#[local] Unset Elimination Schemes.
Inductive json :=
| JNull
| JBool (b : bool)
| JNumber (literal : string)
| JString (s : string)
| JArray (items : list json)
| JObject (members : list (string * json)).
#[local] Set Elimination Schemes.

Record Response := mkResponse {
  status_code : Z;
  body : result json        (* what [response.json()] evaluates to *)
}.

(** Everything the process does that is visible outside, in order. *)
Inductive event :=
| ApiCall (c : api_call)
| HttpGet (url : string) (params : list (string * string)) (timeout : Z).

(** [logger.error] records, one constructor per format string. *)
Inductive log_record :=
| NotifyFailed (admin_id : Z) (e : exn)    (* Failed to notify admin %d: %s *)
| VoteProcessingError (e : exn)            (* Vote processing error: %s *)
| TrendsApiError (e : exn).                (* Trends API error: %s *)

(** The outside world and the interpreter's tables.  An oracle that
    answers a call is indexed by the number of events that happened before
    it. *)
Record Env := mkEnv {
  ADMIN_IDS : list Z;
  api_fault : nat -> api_call -> option exn;
  http_get : nat -> string -> list (string * string) -> Z -> result Response;
  current_timestamp : nat -> string;
  format_grouped : json -> result string;     (* [f"{v:,}"] *)
  format_signed_1f : json -> result string;   (* [f"{v:+.1f}"] *)
  unicode_upper : string -> string;           (* [upper] beyond ASCII *)
  unicode_int : string -> result Z            (* [int] beyond ASCII *)
}.

Record World := mkWorld {
  db : DB;
  user_data : gmap Z (gmap string string);
  trace : list event;
  log : list log_record
}.

(** ** The handler monad *)

Definition M (A : Type) : Type := World -> result A * World.

#[global] Instance result_ret : MRet result := fun _ a => Ok a.
#[global] Instance result_bind : MBind result := fun _ _ k r =>
  match r with
  | Ok a => k a
  | Raise e => Raise e
  end.

#[global] Instance M_ret : MRet M := fun _ a w => (Ok a, w).
#[global] Instance M_bind : MBind M := fun _ _ k m w =>
  match m w with
  | (Ok a, w') => k a w'
  | (Raise e, w') => (Raise e, w')
  end.

Definition raise {A : Type} (e : exn) : M A := fun w => (Raise e, w).

Definition lift {A : Type} (r : result A) : M A := fun w => (r, w).

(** [try: body / except ...: handler]; a handler re-raises what no clause
    matches. *)
Definition try_except {A : Type} (body : M A) (handler : exn -> M A) : M A :=
  fun w =>
    match body w with
    | (Ok a, w') => (Ok a, w')
    | (Raise e, w') => handler e w'
    end.

(** Attribute access on an [Optional] value. *)
Definition getattr {A : Type} (o : option A) : M A :=
  match o with
  | Some a => mret a
  | None => raise AttributeError
  end.

Fixpoint for_each {A : Type} (l : list A) (body : A -> M unit) : M unit :=
  match l with
  | [] => mret tt
  | a :: l' => body a ;; for_each l' body
  end.

Fixpoint map_result {A B : Type} (f : A -> result B) (l : list A) : result (list B) :=
  match l with
  | [] => Ok []
  | a :: l' => b ← f a; bs ← map_result f l'; Ok (b :: bs)
  end.

Definition set_db (d : DB) (w : World) : World :=
  mkWorld d (user_data w) (trace w) (log w).

Definition record (ev : event) (w : World) : World :=
  mkWorld (db w) (user_data w) (trace w ++ [ev]) (log w).

Definition logger_error (r : log_record) : M unit :=
  fun w => (Ok tt, mkWorld (db w) (user_data w) (trace w) (log w ++ [r])).

(** [with sqlite3.connect('web3_bot.db') as conn: body]: commit when the
    body ends normally, roll back when an exception leaves it. *)
Definition with_connection {A : Type} (body : M A) : M A :=
  fun w =>
    match body w with
    | (Ok a, w') => (Ok a, w')
    | (Raise e, w') => (Raise e, set_db (db w) w')
    end.

(** [conn.execute(stmt, params)] for a statement that writes. *)
Definition execute (stmt : DB -> result DB) : M unit :=
  fun w =>
    match stmt (db w) with
    | Ok d => (Ok tt, set_db d w)
    | Raise e => (Raise e, w)
    end.

(** [conn.execute(stmt).fetchall()] *)
Definition fetch {A : Type} (q : DB -> A) : M A :=
  fun w => (Ok (q (db w)), w).

Definition the_user_data (context : Context) (w : World) : gmap string string :=
  default ∅ (user_data w !! ctx_user_id context).

(** [context.user_data] *)
Definition get_user_data (context : Context) : M (gmap string string) :=
  fun w => (Ok (the_user_data context w), w).

(** [context.user_data[k] = v] *)
Definition user_data_setitem (context : Context) (k v : string) : M unit :=
  fun w =>
    (Ok tt, mkWorld (db w)
                    (<[ctx_user_id context := <[k := v]> (the_user_data context w)]>
                       (user_data w))
                    (trace w) (log w)).

(** [del context.user_data[k]] *)
Definition user_data_delitem (context : Context) (k : string) : M unit :=
  fun w =>
    match the_user_data context w !! k with
    | None => (Raise (KeyError k), w)
    | Some _ =>
        (Ok tt, mkWorld (db w)
                        (<[ctx_user_id context := delete k (the_user_data context w)]>
                           (user_data w))
                        (trace w) (log w))
    end.

(** ** The handlers of [zepp.py] *)

Definition COINGECKO_API : string := "https://api.coingecko.com/api/v3".

Definition SERVICE_TYPES : list (string * string) :=
  [ ("shilling", "📢 Shilling Services");
    ("hype", "🚀 Organic Hype Building");
    ("mod", "🛡️ Community Moderation");
    ("cm", "👥 Community Management");
    ("dev", "💻 Web3 Development");
    ("design", "🎨 NFT/Web3 Design");
    ("other", "🔮 Other Web3 Services") ].

Definition msg_vote_counted : string :=
  "✅ Your vote has been counted! Project ranking updated.".
Definition msg_already_voted : string :=
  "⚠️ You've already voted for this project!".
Definition msg_vote_failed : string :=
  "⚠️ Failed to process your vote. Please try again.".
Definition msg_service_submitted : string :=
  "✅ Service submitted to admins!".
Definition msg_select_service_type : string :=
  "🎯 Select your service type:".
Definition msg_trends_fallback : string :=
  "⚠️ Couldn't fetch trends. Try again later." +:+ nl +:+
  "Meanwhile check /wallets or /vote".
Definition msg_no_projects : string :=
  "📭 No projects available for voting yet!" +:+ nl +:+
  "Admins can add projects with /addproject".
Definition msg_vote_header : string :=
  "🗳️ Vote for Web3 Projects" +:+ nl +:+ "Community-ranked top 10:".
Definition msg_welcome : string :=
  "🌐 Web3 Promotion Hub" +:+ nl +:+ nl +:+
  "1. Vote for projects ↗️" +:+ nl +:+
  "2. Check crypto trends 📊" +:+ nl +:+
  "3. Offer/find services 💼" +:+ nl +:+
  "4. View official wallets 🔐" +:+ nl +:+ nl +:+
  "Choose an option:".

Definition msg_describe_service (label : string) : string :=
  "✍️ Describe your " +:+ label +:+ ":" +:+ nl +:+ nl +:+
  "Example: " +:+ dquote +:+
  "I provide Twitter shilling for new NFT projects with 10K+ follower network" +:+
  dquote +:+ nl +:+ nl +:+
  "Type your description now:".

(** The f-string field of a value that may be [None]. *)
Definition str_of_optional (o : option string) : string :=
  match o with
  | Some s => s
  | None => "None"
  end.

Definition msg_new_submission (service_type : string) (username : option string)
           (description : string) : string :=
  "🆕 New Service Submission:" +:+ nl +:+ nl +:+
  "Type: " +:+ dict_get_default SERVICE_TYPES service_type service_type +:+ nl +:+
  "From: @" +:+ str_of_optional username +:+ nl +:+
  "Details: " +:+ slice_to 1000 description.

(** [[InlineKeyboardButton(text, callback_data=f'service_{key}')]
     for key, text in SERVICE_TYPES.items()] *)
Definition service_keyboard : Keyboard :=
  map (fun kv => [mkButton (snd kv) ("service_" +:+ fst kv)]) SERVICE_TYPES.

Definition wallet_line (row : string * string) : string :=
  fst row +:+ ": <code>" +:+ snd row +:+ "</code>".

Definition msg_wallets (rows : list (string * string)) : string :=
  "🔐 Verified Wallets:" +:+ nl +:+ nl +:+ join nl (map wallet_line rows).

Definition project_button (row : Z * string * option Z) : list Button :=
  let '(id, name, votes) := row in
  [mkButton (name +:+ " (👍 " +:+ str_of_optional (str_of_int <$> votes) +:+ ")")
            ("vote_" +:+ str_of_int id)].

(** Iterating a decoded JSON value with [for coin in ...]. *)
Definition json_iter (j : json) : result (list json) :=
  match j with
  | JArray items => Ok items
  | JObject members => Ok (map (fun kv => JString (fst kv)) members)
  | JString s => Ok (map (fun c => JString (String c EmptyString)) (list_ascii_of_string s))
  | _ => Raise TypeError
  end.

(** [j[k]] for a string key. *)
Definition json_getitem (j : json) (k : string) : result json :=
  match j with
  | JObject members =>
      match dict_get members k with
      | Some v => Ok v
      | None => Raise (KeyError k)
      end
  | _ => Raise TypeError
  end.

(** [j.upper()] *)
Definition json_upper (beyond : string -> string) (j : json) : result string :=
  match j with
  | JString s => Ok (upper beyond s)
  | _ => Raise AttributeError
  end.

Section Handlers.

Variable env : Env.

Definition call_api (c : api_call) : M unit :=
  fun w =>
    match api_fault env (length (trace w)) c with
    | None => (Ok tt, record (ApiCall c) w)
    | Some e => (Raise e, record (ApiCall c) w)
    end.

(** [context.bot.send_message(chat_id, text)] *)
Definition send_message (chat_id : Z) (text : string) : M unit :=
  call_api (SendMessage chat_id text None None).

(** [message.reply_text(text, reply_markup=..., parse_mode=...)] *)
Definition reply_text (message : Message) (text : string) (markup : option Keyboard)
           (parse_mode : option string) : M unit :=
  call_api (SendMessage (msg_chat_id message) text markup parse_mode).

(** [context.bot.get_chat(user_id).username].  [get_chat] is a coroutine
    function and the call is not awaited: it sends nothing and gives a
    coroutine object, which has no attribute [username]. *)
Definition get_chat_username (user_id : Z) : M (option string) :=
  raise AttributeError.

(** [requests.get(url, params=..., timeout=...)] *)
Definition requests_get (url : string) (params : list (string * string)) (timeout : Z)
  : M Response :=
  fun w => (http_get env (length (trace w)) url params timeout,
            record (HttpGet url params timeout) w).

(** [response.raise_for_status()] *)
Definition raise_for_status (response : Response) : M unit :=
  if (400 <=? status_code response) && (status_code response <? 600)
  then raise (RequestException (HTTPError (status_code response)))
  else mret tt.

Definition sql_now : M string :=
  fun w => (Ok (current_timestamp env (length (trace w))), w).

(** *** Service functions *)

Definition notify_admin (user_id : Z) (service_type description : string) (admin_id : Z)
  : M unit :=
  try_except
    (username ← get_chat_username user_id;
     send_message admin_id (msg_new_submission service_type username description))
    (fun e => logger_error (NotifyFailed admin_id e)).

Definition submit_service (context : Context) (user_id : Z)
           (service_type description : string) : M unit :=
  with_connection
    (now ← sql_now;
     execute (fun d => Ok (Sql.insert_service d user_id service_type description now)));;
  for_each (ADMIN_IDS env) (notify_admin user_id service_type description).

(** *** Voting system *)

Definition process_vote (context : Context) (user_id project_id : Z) : M unit :=
  with_connection
    (try_except
       (execute (fun d => Sql.insert_vote d user_id project_id);;
        execute (fun d => Ok (Sql.increment_votes d project_id));;
        send_message user_id msg_vote_counted)
       (fun e =>
          if is_IntegrityError e then send_message user_id msg_already_voted
          else (logger_error (VoteProcessingError e);;
                send_message user_id msg_vote_failed))).

(** *** Core commands *)

Definition start_keyboard : Keyboard :=
  [ [ mkButton "📊 Vote Projects" "vote_menu";
      mkButton "📈 Market Trends" "trends" ];
    [ mkButton "🛍️ Offer Services" "service_menu";
      mkButton "🔍 Find Services" "find_services" ];
    [ mkButton "🔑 Wallet Addresses" "wallets" ] ].

Definition start (update : Update) (context : Context) : M unit :=
  message ← getattr (upd_message update);
  reply_text message msg_welcome (Some start_keyboard) None.

Definition trends_params : list (string * string) :=
  [ ("vs_currency", "usd");
    ("order", "market_cap_desc");
    ("per_page", "5");
    ("price_change_percentage", "24h") ].

Definition trend_line (coin : json) : result string :=
  symbol ← json_getitem coin "symbol";
  ticker ← json_upper (unicode_upper env) symbol;
  price ← json_getitem coin "current_price";
  price_text ← format_grouped env price;
  change ← json_getitem coin "price_change_percentage_24h";
  change_text ← format_signed_1f env change;
  Ok (ticker +:+ ": $" +:+ price_text +:+ " (" +:+ change_text +:+ "%)").

Definition msg_trends (trends : list string) : string :=
  "🔥 Top 5 Cryptocurrencies:" +:+ nl +:+ nl +:+ join nl trends +:+
  nl +:+ nl +:+ "📊 24h price change".

Definition crypto_trends (update : Update) (context : Context) : M unit :=
  try_except
    (response ← requests_get (COINGECKO_API +:+ "/coins/markets") trends_params 10;
     raise_for_status response;;
     trends ← lift (decoded ← body response;
                    coins ← json_iter decoded;
                    map_result trend_line coins);
     message ← getattr (upd_message update);
     reply_text message (msg_trends trends) None None)
    (fun e =>
       if is_RequestException e then
         logger_error (TrendsApiError e);;
         message ← getattr (upd_message update);
         reply_text message msg_trends_fallback None None
       else raise e).

Definition vote_project (update : Update) (context : Context) : M unit :=
  rows ← with_connection (fetch Sql.select_top_projects);
  match rows with
  | [] =>
      message ← getattr (upd_message update);
      reply_text message msg_no_projects None None
  | _ :: _ =>
      let keyboard := map project_button rows in
      message ← getattr (upd_message update);
      reply_text message msg_vote_header (Some keyboard) None
  end.

Definition promote_service (update : Update) (context : Context) : M unit :=
  match ctx_args context with
  | [] =>
      message ← getattr (upd_message update);
      reply_text message msg_select_service_type (Some service_keyboard) None
  | _ :: _ =>
      user ← getattr (upd_effective_user update);
      submit_service context user "custom" (join " " (ctx_args context));;
      message ← getattr (upd_message update);
      reply_text message msg_service_submitted None None
  end.

Definition show_wallets (update : Update) (context : Context) : M unit :=
  rows ← with_connection (fetch Sql.select_wallets);
  message ← getattr (upd_message update);
  reply_text message (msg_wallets rows) None (Some "HTML").

(** *** Button handlers *)

Definition show_service_menu (query : CallbackQuery) : M unit :=
  call_api (EditMessageText query msg_select_service_type (Some service_keyboard)).

Definition button_handler (update : Update) (context : Context) : M unit :=
  query ← getattr (upd_callback_query update);
  call_api (AnswerCallbackQuery query);;
  let data := cq_data query in
  let user_id := cq_from_user query in
  if startswith data "vote_" then
    project_id ← lift (int_of_str (unicode_int env) (slice_from 5 data));
    process_vote context user_id project_id
  else if startswith data "service_" then
    let service_type := slice_from 8 data in
    label ← lift (dict_index SERVICE_TYPES service_type);
    call_api (EditMessageText query (msg_describe_service label) None);;
    user_data_setitem context "awaiting_service" service_type
  else if String.eqb data "service_menu" then show_service_menu query
  else if String.eqb data "vote_menu" then vote_project update context
  else if String.eqb data "trends" then crypto_trends update context
  else if String.eqb data "wallets" then show_wallets update context
  else mret tt.

(** *** Message handlers *)

Definition handle_service_description (update : Update) (context : Context) : M unit :=
  data ← get_user_data context;
  match data !! "awaiting_service" with
  | None => mret tt
  | Some service_type =>
      message ← getattr (upd_message update);
      let description := msg_text message in
      user ← getattr (upd_effective_user update);
      submit_service context user service_type description;;
      user_data_delitem context "awaiting_service";;
      reply_text message msg_service_submitted None None
  end.

End Handlers.

(** ** Concrete worlds for examples *)

(** Telegram accepts every request, CoinGecko times out. *)
Definition calm_env (admins : list Z) : Env :=
  mkEnv admins
        (fun _ _ => None)
        (fun _ _ _ _ => Raise (RequestException Timeout))
        (fun _ => "2024-05-01 12:00:00")
        (fun _ => Ok "1")
        (fun _ => Ok "+0.0")
        (fun s => s)
        (fun _ => Raise ValueError).

(** Telegram refuses every message to the chats in [blocked]. *)
Definition refuses (blocked : list Z) (c : api_call) : option exn :=
  match c with
  | SendMessage chat_id _ _ _ =>
      if existsb (Z.eqb chat_id) blocked then Some (TelegramError "Forbidden") else None
  | _ => None
  end.

Definition patchy_env (admins blocked : list Z) : Env :=
  mkEnv admins
        (fun _ => refuses blocked)
        (fun _ _ _ _ => Ok (mkResponse 503 (Raise (RequestException InvalidJSON))))
        (fun _ => "2024-05-01 12:00:00")
        (fun _ => Ok "1")
        (fun _ => Ok "+0.0")
        (fun s => s)
        (fun _ => Raise ValueError).

(** Telegram refuses the first request with a time-out and accepts the
    rest. *)
Definition fussy_env : Env :=
  mkEnv []
        (fun n _ => if (n =? 0)%nat then Some (TelegramError "Timed out") else None)
        (fun _ _ _ _ => Raise (RequestException Timeout))
        (fun _ => EmptyString)
        (fun _ => Ok EmptyString)
        (fun _ => Ok EmptyString)
        (fun s => s)
        (fun _ => Raise ValueError).

Definition world_of (d : DB) : World := mkWorld d ∅ [] [].

Definition demo_project : Project :=
  mkProject 7 "zk-rollup" None (Some 0) None (Some "2024-04-30 09:00:00").

Definition demo_db : DB := mkDB [demo_project] [] [] seed_wallets 0.

Definition demo_context (user_id : Z) : Context := mkContext user_id [].

(** ** Voting *)

(** The database once [user_id]'s vote for [project_id] is in: the row is
    appended and every project row with that id is bumped. *)
Definition voted (d : DB) (user_id project_id : Z) : DB :=
  Sql.increment_votes
    (mkDB (projects d) (services d) (votes d ++ [mkVote user_id project_id])
          (wallets d) (seq_services d))
    project_id.
Arguments voted : simpl never.

(** Number of vote rows for a project. *)
Definition vote_count (project_id : Z) (d : DB) : nat :=
  length (filter (fun v => v_project_id v = project_id) (votes d)).

(** The denormalised counter of every project row agrees with the votes
    table. *)
Definition counters_consistent (d : DB) : Prop :=
  forall pr, pr ∈ projects d -> p_votes pr = Some (Z.of_nat (vote_count (p_id pr) d)).

(** A run of [process_vote] calls.  An exception that leaves a handler is
    caught by the application, which goes on with the next update. *)
Fixpoint run_votes (env : Env) (calls : list (Context * Z * Z)) (w : World) : World :=
  match calls with
  | [] => w
  | (context, user_id, project_id) :: calls' =>
      run_votes env calls' (snd (process_vote env context user_id project_id w))
  end.

(** One vote for [project_id] by each of [users], in order. *)
Definition votes_by (context : Context) (project_id : Z) (users : list Z)
  : list (Context * Z * Z) :=
  map (fun u => (context, u, project_id)) users.

Definition always_delivers (env : Env) : Prop :=
  forall n c, api_fault env n c = None.

(** ** Reading decimal numerals *)

(** The value of a decimal numeral read left to right with accumulator
    [acc]. *)
Fixpoint uint_value (acc : Z) (d : Decimal.uint) : Z :=
  match d with
  | Decimal.Nil => acc
  | Decimal.D0 l => uint_value (10 * acc + 0) l
  | Decimal.D1 l => uint_value (10 * acc + 1) l
  | Decimal.D2 l => uint_value (10 * acc + 2) l
  | Decimal.D3 l => uint_value (10 * acc + 3) l
  | Decimal.D4 l => uint_value (10 * acc + 4) l
  | Decimal.D5 l => uint_value (10 * acc + 5) l
  | Decimal.D6 l => uint_value (10 * acc + 6) l
  | Decimal.D7 l => uint_value (10 * acc + 7) l
  | Decimal.D8 l => uint_value (10 * acc + 8) l
  | Decimal.D9 l => uint_value (10 * acc + 9) l
  end.

Fixpoint no_space (s : string) : bool :=
  match s with
  | EmptyString => true
  | String c r => negb (is_space c) && no_space r
  end.

(** ** Callback routing *)

(** A decimal numeral: one digit or more and nothing else. *)
Fixpoint all_digits (s : string) : bool :=
  match s with
  | EmptyString => true
  | String c r => bool_decide (is_Some (digit_of c)) && all_digits r
  end.

Definition is_numeral (s : string) : bool :=
  negb (String.eqb s EmptyString) && all_digits s.

(** The payloads the bot is meant to receive: [vote_] followed by the
    numeral of a project id, [service_] followed by a key of
    [SERVICE_TYPES], and the four literals. *)
Definition recognized (data : string) : bool :=
  (startswith data "vote_" && is_numeral (slice_from 5 data)) ||
  (startswith data "service_" &&
   bool_decide (is_Some (dict_get SERVICE_TYPES (slice_from 8 data)))) ||
  String.eqb data "service_menu" || String.eqb data "vote_menu" ||
  String.eqb data "trends" || String.eqb data "wallets".

Definition press (data : string) (user_id : Z) : Update :=
  mkUpdate None (Some (mkCallbackQuery "cbq" data user_id)) (Some user_id).

Definition text_message (text : string) (user_id : Z) : Update :=
  mkUpdate (Some (mkMessage user_id text)) None (Some user_id).

(** ** Service submission *)

(** What the log gains in the loop over the administrators: building the
    message raises for each of them. *)
Definition notify_failures (admins : list Z) : list log_record :=
  map (fun admin_id => NotifyFailed admin_id AttributeError) admins.

(** The arguments the command handler of the library passes in
    [context.args]: the pieces of the message text after the command
    itself. *)
Definition command_args (text : string) : list string := tail (split_whitespace text).

Fixpoint skip_piece (s : string) : string :=
  match s with
  | EmptyString => EmptyString
  | String c r => if is_separator c then s else skip_piece r
  end.

Fixpoint skip_separators (s : string) : string :=
  match s with
  | EmptyString => EmptyString
  | String c r => if is_separator c then skip_separators r else s
  end.

(** The free text that follows the command in a message, as the user typed
    it. *)
Definition command_payload (text : string) : string :=
  skip_separators (skip_piece (skip_separators text)).

(** The row [submit_service] adds. *)
Definition service_row (d : DB) (user_id : Z) (service_type description now : string)
  : Service :=
  mkService (Sql.next_service_id d) user_id service_type (Some description) None (Some 1)
            (Some now).

(** [del context.user_data['awaiting_service']] seen on the world. *)
Definition flag_cleared (context : Context) (w : World) : World :=
  mkWorld (db w)
          (<[ctx_user_id context := delete "awaiting_service" (the_user_data context w)]>
             (user_data w))
          (trace w) (log w).

(** ** Market trends *)

Definition markets_url : string := COINGECKO_API +:+ "/coins/markets".

(** The market-data call failed: [requests.get] raised a
    [RequestException] (a timeout, a connection error, ...) or the response
    carries a status that [raise_for_status] rejects. *)
Definition market_call_failed (r : result Response) : Prop :=
  match r with
  | Raise (RequestException _) => True
  | Raise _ => False
  | Ok response => 400 <= status_code response < 600
  end.

(** The exception the handler sees in that case. *)
Definition market_error (r : result Response) : exn :=
  match r with
  | Raise e => e
  | Ok response => RequestException (HTTPError (status_code response))
  end.

(** ** Wallets *)

Definition seeded_wallets_text : string :=
  "🔐 Verified Wallets:" +:+ nl +:+ nl +:+
  "BTC: <code>1A1zP1eP5QGefi2DMPTfTL5SLmv7DivfNa</code>" +:+ nl +:+
  "ETH: <code>0x742d35Cc6634C0532925a3b844Bc454e4438f44e</code>".

(** ** What a handler leaves alone

    A relation between the world before and the world after a handler.
    The relations used below are reflexive, transitive and kept when the
    database is rolled back to where it was, so they pass through the
    combinators of the monad. *)

Class Frame (R : World -> World -> Prop) := {
  frame_refl : forall w, R w w;
  frame_trans : forall w1 w2 w3, R w1 w2 -> R w2 w3 -> R w1 w3;
  frame_rollback : forall w w', R w w' -> R w (set_db (db w) w')
}.

(** [m] takes every world to one that [R] relates to it, whether it returns
    or raises. *)
Definition respects {A : Type} (R : World -> World -> Prop) (m : M A) : Prop :=
  forall w, R w (snd (m w)).

(** The per-user dictionaries are as they were. *)
Definition same_user_data (w w' : World) : Prop :=
  user_data w' = user_data w.

(** Database and per-user dictionaries are as they were. *)
Definition only_talks (w w' : World) : Prop :=
  db w' = db w /\ user_data w' = user_data w.

(** The requests [show_service_menu] and [vote_project] send: the category
    keyboard, the voting keyboard, the no-projects notice; more generally
    anything that carries an inline keyboard. *)
Definition shows_menu (ev : event) : bool :=
  match ev with
  | ApiCall (EditMessageText _ text markup) =>
      String.eqb text msg_select_service_type || bool_decide (is_Some markup)
  | ApiCall (SendMessage _ text markup _) =>
      String.eqb text msg_vote_header || String.eqb text msg_no_projects ||
      bool_decide (is_Some markup)
  | _ => false
  end.

(** The trace grew by events none of which shows a menu. *)
Definition no_menu_since (w w' : World) : Prop :=
  exists evs, trace w' = trace w ++ evs /\ Forall (fun ev => shows_menu ev = false) evs.

(** The HTTP requests of a trace. *)
Definition is_http (ev : event) : bool :=
  match ev with
  | HttpGet _ _ _ => true
  | _ => false
  end.

Definition http_requests (tr : list event) : list event := List.filter is_http tr.

(** ** The voting menu *)

(** [p] may stand before [q] in the voting menu: [p] has no fewer votes. *)
Definition votes_desc (p q : Project) : Prop :=
  Sql.votes_lt (p_votes p) (p_votes q) = false.

(** The columns the menu query selects. *)
Definition project_row (p : Project) : Z * string * option Z :=
  (p_id p, p_name p, p_votes p).

(** A project row without its counter. *)
Definition without_votes (p : Project) : Z * string * option string * option Z * option string :=
  (p_id p, p_name p, p_description p, p_submitted_by p, p_submission_date p).

(** ** Market trends, the lines *)

(** The list comprehension of [crypto_trends]: the lines built from the
    decoded response. *)
Definition decode_trends (env : Env) (response : Response) : result (list string) :=
  decoded ← body response;
  coins ← json_iter decoded;
  map_result (trend_line env) coins.

(** The trace grew by events none of which is an HTTP request. *)
Definition no_http_since (w w' : World) : Prop :=
  exists evs, trace w' = trace w ++ evs /\ Forall (fun ev => is_http ev = false) evs.

(** A coin as the endpoint describes it. *)
Definition coin (symbol price change : string) : json :=
  JObject [("symbol", JString symbol);
           ("current_price", JNumber price);
           ("price_change_percentage_24h", JNumber change)].

(** An environment that prints a number by its literal. *)
Definition market_env (answer : result Response) : Env :=
  mkEnv []
        (fun _ _ => None)
        (fun _ _ _ _ => answer)
        (fun _ => EmptyString)
        (fun j => match j with JNumber l => Ok l | _ => Raise TypeError end)
        (fun j => match j with JNumber l => Ok l | _ => Raise TypeError end)
        (fun s => s)
        (fun _ => Raise ValueError).

(** * Properties *)

(** ** Python values *)

Example int_of_str_plain : int_of_ascii "42" = Ok 42.
Proof. reflexivity. Qed.

Example int_of_str_spaces_sign : int_of_ascii " -1_000 " = Ok (-1000).
Proof. reflexivity. Qed.

Example int_of_str_word : int_of_ascii "menu" = Raise ValueError.
Proof. reflexivity. Qed.

Example int_of_str_empty : int_of_ascii EmptyString = Raise ValueError.
Proof. reflexivity. Qed.

(** U+001C separates pieces for [split] and is no white space for [int]. *)
Example int_of_str_separator :
  int_of_ascii (String (ascii_of_nat 28) "5") = Raise ValueError /\
  split_whitespace (String (ascii_of_nat 28) "5") = ["5"].
Proof. split; reflexivity. Qed.

(** A fullwidth digit is left to the interpreter's tables. *)
Example int_of_str_fullwidth beyond : int_of_str beyond "７" = beyond "７".
Proof. reflexivity. Qed.

Example str_of_int_neg : str_of_int (-305) = "-305".
Proof. reflexivity. Qed.

(** Two characters of "éab" are three bytes. *)
Example slice_to_characters : slice_to 2 "éab" = "éa".
Proof. reflexivity. Qed.

Example init_db_new_file :
  init_db new_file = Ok (mkDB [] [] [] seed_wallets 0).
Proof. reflexivity. Qed.

(** *** [int(str(z))] is [z] *)

Lemma int_digits_step c c' r acc k :
  digit_of c = Some k -> Ascii.eqb c' underscore = false ->
  int_digits acc (String c (String c' r)) = int_digits (10 * acc + k) (String c' r).
Proof. intros H1 H2. simpl. rewrite H1, H2. reflexivity. Qed.

Lemma int_digits_uint d : forall acc, d <> Decimal.Nil ->
  int_digits acc (NilEmpty.string_of_uint d) = Some (uint_value acc d).
Proof.
  induction d; intros acc Hne; try congruence;
    (destruct d; [reflexivity | ..]);
    (etransitivity; [apply int_digits_step; reflexivity | apply IHd; discriminate]).
Qed.

Lemma of_uint_acc_value d : forall acc,
  Zpos (Pos.of_uint_acc d acc) = uint_value (Zpos acc) d.
Proof.
  induction d; intros acc; simpl; try reflexivity; rewrite IHd; f_equal; lia.
Qed.

Lemma of_uint_value d : Z.of_uint d = uint_value 0 d.
Proof.
  unfold Z.of_uint. induction d; simpl; try reflexivity; try apply IHd;
    apply of_uint_acc_value.
Qed.

Lemma rstrip_no_space s : no_space s = true -> rstrip s = s.
Proof.
  induction s as [|c r IH]; [done|]. simpl.
  intros [Hc Hr]%andb_true_iff. rewrite IH by done.
  apply negb_true_iff in Hc. destruct r; [by rewrite Hc | done].
Qed.

Lemma no_space_uint d : no_space (NilEmpty.string_of_uint d) = true.
Proof. induction d; simpl; auto. Qed.

Lemma lstrip_no_space s : no_space s = true -> lstrip s = s.
Proof.
  destruct s as [|c r]; [done|]. simpl.
  intros [Hc _]%andb_true_iff. apply negb_true_iff in Hc. by rewrite Hc.
Qed.

Lemma strip_no_space s : no_space s = true -> strip s = s.
Proof.
  intros H. unfold strip. rewrite lstrip_no_space by done. by apply rstrip_no_space.
Qed.

Lemma int_digits_starts_with_digit acc c r z :
  int_digits acc (String c r) = Some z -> digit_of c <> None.
Proof. simpl. by destruct (digit_of c). Qed.

Lemma int_of_ascii_unsigned s z :
  no_space s = true -> int_digits 0 s = Some z -> int_of_ascii s = Ok z.
Proof.
  intros Hs Hd. unfold int_of_ascii. rewrite strip_no_space by done.
  destruct s as [|c r]; [done|].
  pose proof (int_digits_starts_with_digit _ _ _ _ Hd) as Hc.
  destruct (Ascii.eqb_spec c plus_sign) as [-> | _]; [done|].
  destruct (Ascii.eqb_spec c minus_sign) as [-> | _]; [done|].
  by rewrite Hd.
Qed.

Lemma int_of_ascii_negative s z :
  no_space s = true -> int_digits 0 s = Some z -> int_of_ascii (String minus_sign s) = Ok (- z).
Proof.
  intros Hs Hd. unfold int_of_ascii.
  rewrite strip_no_space by (simpl; by rewrite Hs).
  simpl. by rewrite Hd.
Qed.

Lemma string_of_uint_nonnil d :
  d <> Decimal.Nil -> NilZero.string_of_uint d = NilEmpty.string_of_uint d.
Proof. by destruct d. Qed.

Lemma int_of_ascii_of_int z : int_of_ascii (str_of_int z) = Ok z.
Proof.
  unfold str_of_int. rewrite <- (DecimalZ.of_to z) at 2.
  destruct z as [|p|p]; [reflexivity | |]; simpl Z.to_int;
    pose proof (Unsigned.to_uint_nonnil p) as Hnn;
    unfold Z.of_int, NilZero.string_of_int;
    rewrite of_uint_value, string_of_uint_nonnil by done.
  - apply int_of_ascii_unsigned; [apply no_space_uint | by apply int_digits_uint].
  - apply int_of_ascii_negative; [apply no_space_uint | by apply int_digits_uint].
Qed.

Lemma is_ascii_uint d : is_ascii (NilEmpty.string_of_uint d) = true.
Proof. induction d; simpl; auto. Qed.

Lemma is_ascii_str_of_int z : is_ascii (str_of_int z) = true.
Proof.
  unfold str_of_int, NilZero.string_of_int, NilZero.string_of_uint.
  destruct (Z.to_int z) as [d|d]; destruct d; try reflexivity; apply is_ascii_uint.
Qed.

(** A numeral written by [str] is read back by [int], whatever the
    interpreter's tables. *)
Lemma int_of_str_of_int beyond z : int_of_str beyond (str_of_int z) = Ok z.
Proof. unfold int_of_str. by rewrite is_ascii_str_of_int, int_of_ascii_of_int. Qed.

(** ** Voting *)

Ltac unfold_monad :=
  unfold mbind, M_bind, mret, M_ret, try_except, with_connection, execute, fetch,
    raise, lift, getattr, logger_error, send_message, reply_text, call_api in *.

Lemma has_vote_elem u p d : Sql.has_vote u p d = true <-> mkVote u p ∈ votes d.
Proof.
  unfold Sql.has_vote. rewrite existsb_exists. split.
  - intros ([u' p'] & Hin & Heq). simpl in Heq.
    apply andb_true_iff in Heq as [->%Z.eqb_eq ->%Z.eqb_eq].
    by apply list_elem_of_In.
  - intros Hin. exists (mkVote u p). split; [by apply list_elem_of_In|].
    simpl. by rewrite !Z.eqb_refl.
Qed.

Lemma has_vote_not_elem u p d : Sql.has_vote u p d = false <-> mkVote u p ∉ votes d.
Proof.
  rewrite <- has_vote_elem. destruct (Sql.has_vote u p d); split; congruence.
Qed.

(** What [process_vote] does when the pair is new, for every behaviour of
    Telegram: the success message is tried first; if it fails the error is
    logged and the failure message is tried; the transaction is rolled
    back only when that fails too. *)
Lemma process_vote_new env context u p w :
  Sql.has_vote u p (db w) = false ->
  let n := length (trace w) in
  let ok := SendMessage u msg_vote_counted None None in
  let ko := SendMessage u msg_vote_failed None None in
  let ok_is_sent := record (ApiCall ok) (set_db (voted (db w) u p) w) in
  process_vote env context u p w =
    match api_fault env n ok with
    | None => (Ok tt, ok_is_sent)
    | Some e =>
        if is_IntegrityError e then
          let reply := SendMessage u msg_already_voted None None in
          match api_fault env (S n) reply with
          | None => (Ok tt, record (ApiCall reply) ok_is_sent)
          | Some e' => (Raise e', set_db (db w) (record (ApiCall reply) ok_is_sent))
          end
        else
          let logged := mkWorld (voted (db w) u p) (user_data w) (trace w ++ [ApiCall ok])
                                (log w ++ [VoteProcessingError e]) in
          match api_fault env (S n) ko with
          | None => (Ok tt, record (ApiCall ko) logged)
          | Some e' => (Raise e', set_db (db w) (record (ApiCall ko) logged))
          end
    end.
Proof.
  intros Hnew n ok ko ok_is_sent. subst n ok ko ok_is_sent.
  unfold process_vote. unfold_monad. unfold Sql.insert_vote. rewrite Hnew. simpl.
  destruct (api_fault env (length (trace w)) _) as [e|]; [|reflexivity].
  destruct (is_IntegrityError e); simpl;
    rewrite length_app, Nat.add_1_r; simpl;
    destruct (api_fault env (S (length (trace w))) _); reflexivity.
Qed.

Lemma process_vote_old env context u p w :
  Sql.has_vote u p (db w) = true ->
  let reply := SendMessage u msg_already_voted None None in
  process_vote env context u p w =
    (match api_fault env (length (trace w)) reply with
     | None => Ok tt
     | Some e => Raise e
     end,
     record (ApiCall reply) w).
Proof.
  intros Hold reply. subst reply.
  unfold process_vote. unfold_monad. unfold Sql.insert_vote. rewrite Hold. simpl.
  destruct (api_fault _ _ _); destruct w; reflexivity.
Qed.

(** The database after a call is the old one or the one with the vote in. *)
Lemma process_vote_db env context u p w :
  db (snd (process_vote env context u p w)) = db w \/
  (Sql.has_vote u p (db w) = false /\
   db (snd (process_vote env context u p w)) = voted (db w) u p).
Proof.
  destruct (Sql.has_vote u p (db w)) eqn:Hv.
  - left. rewrite process_vote_old by done. reflexivity.
  - rewrite process_vote_new by done.
    destruct (api_fault _ _ _) as [e|]; [|right; done].
    destruct (is_IntegrityError e); cbv zeta;
      destruct (api_fault env (S _) _); simpl; auto.
Qed.

Lemma vote_count_voted_same d u p : vote_count p (voted d u p) = S (vote_count p d).
Proof.
  unfold vote_count, voted. simpl. rewrite filter_app, length_app. simpl.
  rewrite filter_cons. simpl. case_decide; [simpl; lia | done].
Qed.

Lemma vote_count_voted_other d u p q : q <> p -> vote_count q (voted d u p) = vote_count q d.
Proof.
  intros Hne. unfold vote_count, voted. simpl. rewrite filter_app, length_app.
  rewrite filter_cons. simpl. case_decide; [congruence | simpl; lia].
Qed.

Lemma bump_id p pr : p_id (Sql.bump p pr) = p_id pr.
Proof. unfold Sql.bump. by destruct (p_id pr =? p). Qed.

Lemma voted_project_ids d u p : map p_id (projects (voted d u p)) = map p_id (projects d).
Proof.
  unfold voted. simpl. rewrite map_map. apply map_ext. intros pr. apply bump_id.
Qed.

(** A project row that does not carry the voted id is left alone. *)
Lemma voted_unknown_project d u p :
  (forall pr, pr ∈ projects d -> p_id pr <> p) -> projects (voted d u p) = projects d.
Proof.
  intros Hno. unfold voted. simpl.
  induction (projects d) as [|pr l IH]; [done|]. simpl. f_equal.
  - unfold Sql.bump. destruct (p_id pr =? p) eqn:E; [|done].
    apply Z.eqb_eq in E. exfalso. apply (Hno pr); [by left | done].
  - apply IH. intros q Hq. apply Hno. by right.
Qed.

Lemma voted_consistent d u p : counters_consistent d -> counters_consistent (voted d u p).
Proof.
  intros Hc pr' Hin. unfold voted in Hin. simpl in Hin.
  apply list_elem_of_fmap in Hin as (pr & -> & Hpr).
  rewrite bump_id. specialize (Hc pr Hpr).
  unfold Sql.bump. destruct (p_id pr =? p) eqn:E.
  - apply Z.eqb_eq in E. subst p. simpl. rewrite Hc, vote_count_voted_same. simpl.
    f_equal. lia.
  - apply Z.eqb_neq in E. rewrite vote_count_voted_other by done. exact Hc.
Qed.

Lemma process_vote_consistent env context u p w :
  counters_consistent (db w) ->
  counters_consistent (db (snd (process_vote env context u p w))).
Proof.
  intros Hc. destruct (process_vote_db env context u p w) as [-> | [_ ->]]; [done|].
  by apply voted_consistent.
Qed.

Lemma process_vote_project_ids env context u p w :
  map p_id (projects (db (snd (process_vote env context u p w)))) = map p_id (projects (db w)).
Proof.
  destruct (process_vote_db env context u p w) as [-> | [_ ->]]; [done|].
  apply voted_project_ids.
Qed.

Lemma run_votes_consistent env calls : forall w,
  counters_consistent (db w) -> counters_consistent (db (run_votes env calls w)).
Proof.
  induction calls as [|[[context u] p] calls IH]; intros w Hc; [done|].
  simpl. apply IH. by apply process_vote_consistent.
Qed.

Lemma run_votes_project_ids env calls : forall w,
  map p_id (projects (db (run_votes env calls w))) = map p_id (projects (db w)).
Proof.
  induction calls as [|[[context u] p] calls IH]; intros w; [done|].
  simpl. rewrite IH. apply process_vote_project_ids.
Qed.

(** With a Telegram that accepts every message, distinct new voters each
    add their row. *)
Lemma run_votes_distinct env context pid users : forall w,
  always_delivers env ->
  NoDup users ->
  (forall u, u ∈ users -> mkVote u pid ∉ votes (db w)) ->
  votes (db (run_votes env (votes_by context pid users) w)) =
    votes (db w) ++ map (fun u => mkVote u pid) users.
Proof.
  induction users as [|u users IH]; intros w Hd Hnd Hnew.
  - simpl. by rewrite app_nil_r.
  - apply NoDup_cons in Hnd as [Hu Hnd]. simpl.
    assert (Hv : Sql.has_vote u pid (db w) = false).
    { apply has_vote_not_elem, Hnew. by left. }
    rewrite process_vote_new by done. cbv zeta. rewrite Hd. simpl.
    rewrite IH; [| done | done |].
    + simpl. by rewrite <- app_assoc.
    + intros u' Hu'. simpl. intros [Hin | Hin]%elem_of_app.
      * apply (Hnew u'); [by right | done].
      * apply list_elem_of_singleton in Hin. injection Hin as ->. done.
Qed.

Lemma vote_count_all pid users :
  length (filter (fun v => v_project_id v = pid) (map (fun u => mkVote u pid) users)) =
  length users.
Proof.
  induction users as [|u users IH]; [done|].
  simpl. rewrite filter_cons. simpl. case_decide; [simpl; lia | done].
Qed.

(** The database [init_db] makes from a missing file satisfies the
    invariant: it lists no project. *)
Lemma fresh_db_consistent d : init_db new_file = Ok d -> counters_consistent d.
Proof.
  intros H. vm_compute in H. injection H as <-. intros pr Hin. simpl in Hin.
  by apply elem_of_nil in Hin.
Qed.

(** The primary key of the votes table: a run of calls never leaves two
    rows for one pair. *)
Lemma process_vote_keeps_votes_unique env context u p w :
  NoDup (votes (db w)) -> NoDup (votes (db (snd (process_vote env context u p w)))).
Proof.
  intros Hnd. destruct (process_vote_db env context u p w) as [-> | [Hnew ->]]; [done|].
  apply has_vote_not_elem in Hnew.
  change (votes (voted (db w) u p)) with (votes (db w) ++ [mkVote u p]).
  apply NoDup_app. split; [done|]. split; [|apply NoDup_singleton].
  intros v Hv ->%list_elem_of_singleton. done.
Qed.

(** A call that ends normally leaves the pair's row in the table, so the
    next call for the pair is a duplicate. *)
Lemma process_vote_leaves_row env context u p w :
  fst (process_vote env context u p w) = Ok tt ->
  Sql.has_vote u p (db (snd (process_vote env context u p w))) = true.
Proof.
  assert (Hin : (Sql.has_vote u p (voted (db w) u p)) = true).
  { apply has_vote_elem. change (votes (voted (db w) u p)) with (votes (db w) ++ [mkVote u p]).
    apply elem_of_app. right. by left. }
  destruct (Sql.has_vote u p (db w)) eqn:Hv.
  - rewrite process_vote_old by done. by destruct (api_fault _ _ _).
  - rewrite process_vote_new by done. cbv zeta.
    destruct (api_fault env (length (trace w)) _) as [e|]; [|done].
    destruct (is_IntegrityError e); destruct (api_fault env (S _) _); done.
Qed.

Lemma process_vote_twice env context u p w :
  let '(r1, w1) := process_vote env context u p w in
  let '(r2, w2) := process_vote env context u p w1 in
  r1 = Ok tt ->
  db w2 = db w1 /\
  trace w2 = trace w1 ++ [ApiCall (SendMessage u msg_already_voted None None)].
Proof.
  pose proof (process_vote_leaves_row env context u p w) as Hrow.
  destruct (process_vote env context u p w) as [r1 w1]. simpl in Hrow.
  destruct (process_vote env context u p w1) as [r2 w2] eqn:E2.
  intros Hr1. specialize (Hrow Hr1).
  rewrite process_vote_old in E2 by done. by injection E2 as <- <-.
Qed.

(** C1. When a vote row for (user, project) is already there, [process_vote]
    tries exactly one reply, the "already voted" text, and leaves the whole
    database as it was: no second row for the pair, no counter changed,
    nothing logged.  The call ends normally unless Telegram refuses that
    reply. *)
Theorem process_vote_rejects_duplicate env context user_id project_id w :
  mkVote user_id project_id ∈ votes (db w) ->
  let reply := SendMessage user_id msg_already_voted None None in
  let '(r, w') := process_vote env context user_id project_id w in
  trace w' = trace w ++ [ApiCall reply] /\
  db w' = db w /\
  log w' = log w /\
  r = match api_fault env (length (trace w)) reply with
      | None => Ok tt
      | Some e => Raise e
      end.
Proof.
  intros Hin reply. apply has_vote_elem in Hin.
  rewrite process_vote_old by done. done.
Qed.

Lemma process_vote_rejects_duplicate_witness :
  let w := world_of (voted demo_db 42 7) in
  let '(r, w') := process_vote (calm_env []) (demo_context 42) 42 7 w in
  trace w' = trace w ++ [ApiCall (SendMessage 42 msg_already_voted None None)] /\
  db w' = db w /\
  log w' = log w /\
  r = Ok tt.
Proof.
  apply (process_vote_rejects_duplicate (calm_env []) (demo_context 42) 42 7
           (world_of (voted demo_db 42 7))).
  simpl. by left.
Defined.

(** C10, where the claim as stated fails.  User 42 has blocked the bot and
    has no vote for project 999, which is not listed: the success message
    is refused, so is the failure notice, the error leaves the handler and
    the transaction is rolled back.  No vote row is inserted and no reply
    is delivered. *)
Lemma process_vote_refused_inserts_nothing :
(mkVote 42 999 ∉ votes demo_db) /\
  process_vote (patchy_env [] [42]) (demo_context 42) 42 999 (world_of demo_db) =
    (Raise (TelegramError "Forbidden"),
     mkWorld demo_db ∅
             [ApiCall (SendMessage 42 msg_vote_counted None None);
              ApiCall (SendMessage 42 msg_vote_failed None None)]
             [VoteProcessingError (TelegramError "Forbidden")]).
Proof. split; [apply not_elem_of_nil | reflexivity]. Qed.

(** C10, amended.  For ids that SQLite stores: when the pair (user, project)
    has no vote row, [process_vote] first tries the success message,
    whether or not a project with that id is listed.  If Telegram accepts
    it the call ends normally with that single reply; whenever the call
    ends normally the new row is the last row of the votes table, and
    otherwise the votes table is what it was.  If no project row carries
    the id, the projects table is left as it was, so the vote is recorded
    against a project that does not exist. *)
Theorem process_vote_unknown_project env context user_id project_id w :
  Sql.fits user_id ->
  Sql.fits project_id ->
  mkVote user_id project_id ∉ votes (db w) ->
  let ok := SendMessage user_id msg_vote_counted None None in
  let '(r, w') := process_vote env context user_id project_id w in
  (exists rest, trace w' = trace w ++ ApiCall ok :: rest) /\
  (api_fault env (length (trace w)) ok = None ->
   r = Ok tt /\ trace w' = trace w ++ [ApiCall ok]) /\
  (r = Ok tt -> votes (db w') = votes (db w) ++ [mkVote user_id project_id]) /\
  (r <> Ok tt -> db w' = db w) /\
  ((forall pr, pr ∈ projects (db w) -> p_id pr <> project_id) ->
   projects (db w') = projects (db w)).
Proof.
  intros _ _ Hnew ok. apply has_vote_not_elem in Hnew.
  rewrite process_vote_new by done. cbv zeta. fold ok.
  assert (Hproj : (forall pr, pr ∈ projects (db w) -> p_id pr <> project_id) ->
                  projects (voted (db w) user_id project_id) = projects (db w)).
  { apply voted_unknown_project. }
  assert (Hrow : votes (voted (db w) user_id project_id) =
                 votes (db w) ++ [mkVote user_id project_id]) by reflexivity.
  destruct (api_fault env (length (trace w)) ok) as [e|].
  - destruct (is_IntegrityError e); cbv zeta;
      destruct (api_fault env (S _) _); simpl;
      (split; [eexists; rewrite <- app_assoc; reflexivity|]);
      (split; [done|]); (split; [done || (intros _; exact Hrow) | done]).
  - simpl. split; [by exists []|]. split; [done|]. split; [intros _; exact Hrow | done].
Qed.

Lemma process_vote_unknown_project_witness :
  let w := world_of (mkDB [] [] [] seed_wallets 0) in
  let '(r, w') := process_vote (calm_env []) (demo_context 42) 42 999 w in
  r = Ok tt /\
  trace w' = [ApiCall (SendMessage 42 msg_vote_counted None None)] /\
  votes (db w') = [mkVote 42 999] /\
  projects (db w') = [].
Proof.
  pose proof (process_vote_unknown_project (calm_env []) (demo_context 42) 42 999
                (world_of (mkDB [] [] [] seed_wallets 0))) as H.
  cbv zeta in *. simpl votes in H. simpl projects in H. simpl trace in H.
  specialize (H ltac:(unfold Sql.fits; lia) ltac:(unfold Sql.fits; lia) (not_elem_of_nil _)).
  destruct (process_vote _ _ _ _ _) as [r w'].
  destruct H as (_ & Hsent & Hrow & _ & Hprojects).
  destruct (Hsent eq_refl) as [Hr Htrace].
  split; [exact Hr|]. split; [exact Htrace|]. split; [exact (Hrow Hr)|].
  apply Hprojects. intros pr Hin. by apply elem_of_nil in Hin.
Defined.

(** C2. Starting from a database whose counters agree with the votes table
    (the freshly initialised one does, see [fresh_db_consistent], and so
    does one whose listed projects have counter 0 and no votes), any run
    of [process_vote] calls, whatever Telegram answers, ends in a database
    where every project row's counter is the number of vote rows for that
    project, and lists the same project ids.  In particular, when the votes
    table starts empty, Telegram accepts every message and the run is one
    vote by each of N distinct users for one project, that project's
    counter is N. *)
Theorem vote_counter_matches_vote_rows env calls w :
  counters_consistent (db w) ->
  let w' := run_votes env calls w in
  (forall pr, pr ∈ projects (db w') ->
     p_votes pr = Some (Z.of_nat (vote_count (p_id pr) (db w')))) /\
  map p_id (projects (db w')) = map p_id (projects (db w)) /\
  (forall context project_id users,
     calls = votes_by context project_id users ->
     always_delivers env ->
     votes (db w) = [] ->
     NoDup users ->
     forall pr, pr ∈ projects (db w') -> p_id pr = project_id ->
       p_votes pr = Some (Z.of_nat (length users))).
Proof.
  intros Hc w'. subst w'. split; [|split].
  - by apply run_votes_consistent.
  - apply run_votes_project_ids.
  - intros context pid users -> Hd Hempty Hnd pr Hin Hid.
    pose proof (run_votes_consistent env (votes_by context pid users) w Hc pr Hin) as Hpr.
    rewrite Hpr, Hid. unfold vote_count.
    rewrite run_votes_distinct; [| done | done |].
    + by rewrite Hempty, app_nil_l, vote_count_all.
    + intros u _. rewrite Hempty. apply not_elem_of_nil.
Qed.

Lemma vote_counter_matches_vote_rows_witness :
  let w' := run_votes (calm_env []) (votes_by (demo_context 0) 7 [11; 12; 13])
                      (world_of demo_db) in
  (forall pr, pr ∈ projects (db w') ->
     p_votes pr = Some (Z.of_nat (vote_count (p_id pr) (db w')))) /\
  map p_id (projects (db w')) = [7] /\
  (forall pr, pr ∈ projects (db w') -> p_id pr = 7 -> p_votes pr = Some 3).
Proof.
  destruct (vote_counter_matches_vote_rows (calm_env [])
              (votes_by (demo_context 0) 7 [11; 12; 13]) (world_of demo_db))
    as (Hcounters & Hids & Hdistinct).
  { intros pr Hin. simpl in Hin. apply list_elem_of_singleton in Hin. subst pr.
    reflexivity. }
  split; [exact Hcounters|]. split; [exact Hids|].
  intros pr Hin Hid.
  apply (Hdistinct (demo_context 0) 7 [11; 12; 13] eq_refl); [| | | exact Hin | exact Hid].
  - intros n c. reflexivity.
  - reflexivity.
  - apply (bool_decide_unpack _). reflexivity.
Defined.

(** The run of the witness, evaluated: three distinct voters, counter 3. *)
Example three_voters :
  projects (db (run_votes (calm_env []) (votes_by (demo_context 0) 7 [11; 12; 13])
                          (world_of demo_db))) =
  [mkProject 7 "zk-rollup" None (Some 3) None (Some "2024-04-30 09:00:00")].
Proof. reflexivity. Qed.

(** A vote whose success message is refused but whose failure message goes
    through is committed all the same: the user is told it failed, and row
    and counter are both in. *)
Example vote_kept_after_failure_notice :
  process_vote fussy_env (demo_context 11) 11 7 (world_of demo_db) =
  (Ok tt,
   mkWorld (voted demo_db 11 7) ∅
           [ApiCall (SendMessage 11 msg_vote_counted None None);
            ApiCall (SendMessage 11 msg_vote_failed None None)]
           [VoteProcessingError (TelegramError "Timed out")]).
Proof. reflexivity. Qed.

(** ** The monad, one step at a time *)

Lemma bind_ret {A B : Type} (a : A) (k : A -> M B) w : (mret a ≫= k) w = k a w.
Proof. reflexivity. Qed.

Lemma bind_getattr {A B : Type} (a : A) (k : A -> M B) w : (getattr (Some a) ≫= k) w = k a w.
Proof. reflexivity. Qed.

Lemma bind_call_api {B : Type} env c (k : unit -> M B) w :
  (call_api env c ≫= k) w =
  match api_fault env (length (trace w)) c with
  | None => k tt (record (ApiCall c) w)
  | Some e => (Raise e, record (ApiCall c) w)
  end.
Proof.
  unfold mbind, M_bind, call_api. by destruct (api_fault env (length (trace w)) c).
Qed.

(** Enter [button_handler] up to the acknowledgement. *)
Ltac enter_button_handler Hq :=
  unfold button_handler; rewrite Hq, bind_getattr, bind_call_api.

(** ** Callback routing *)

Lemma startswith_app p s : startswith (p +:+ s) p = true.
Proof.
  unfold startswith. induction p as [|a p IH]; simpl; [by destruct s|].
  by destruct (ascii_dec a a).
Qed.

Lemma startswith_vote s : startswith ("vote_" +:+ s) "vote_" = true.
Proof. apply startswith_app. Qed.

Lemma slice_vote s : slice_from 5 ("vote_" +:+ s) = s.
Proof. reflexivity. Qed.

(** A press on a button whose tag is [vote_] followed by the decimal form
    of [project_id] casts the presser's vote for that project. *)
Lemma button_handler_vote env update context query project_id w :
  upd_callback_query update = Some query ->
  cq_data query = "vote_" +:+ str_of_int project_id ->
  api_fault env (length (trace w)) (AnswerCallbackQuery query) = None ->
  button_handler env update context w =
  process_vote env context (cq_from_user query) project_id
               (record (ApiCall (AnswerCallbackQuery query)) w).
Proof.
  intros Hq Hdata Hack. enter_button_handler Hq. rewrite Hack, Hdata.
  rewrite startswith_vote, slice_vote, int_of_str_of_int.
  reflexivity.
Qed.

(** The tags of the voting keyboard are of that form. *)
Lemma project_button_tag id name votes :
  map btn_callback_data (project_button (id, name, votes)) = ["vote_" +:+ str_of_int id].
Proof. reflexivity. Qed.

Lemma button_handler_trends env update context query w :
  upd_callback_query update = Some query ->
  cq_data query = "trends" ->
  api_fault env (length (trace w)) (AnswerCallbackQuery query) = None ->
  button_handler env update context w =
  crypto_trends env update context (record (ApiCall (AnswerCallbackQuery query)) w).
Proof.
  intros Hq Hdata Hack. enter_button_handler Hq. rewrite Hack, Hdata.
  reflexivity.
Qed.

Lemma button_handler_wallets env update context query w :
  upd_callback_query update = Some query ->
  cq_data query = "wallets" ->
  api_fault env (length (trace w)) (AnswerCallbackQuery query) = None ->
  button_handler env update context w =
  show_wallets env update context (record (ApiCall (AnswerCallbackQuery query)) w).
Proof.
  intros Hq Hdata Hack. enter_button_handler Hq. rewrite Hack, Hdata.
  reflexivity.
Qed.

(** C3, at the inputs where the code departs from it.  The prefix tests come
    before the literal tests, so the two menu tags never reach their
    branches: [vote_menu] is taken for a vote and [int('menu')] raises
    [ValueError]; [service_menu] is taken for a category and
    [SERVICE_TYPES['menu']] raises [KeyError].  After the acknowledgement
    no request is sent: neither menu is shown. *)
Theorem button_handler_menu_tags_misrouted env update context query w :
  upd_callback_query update = Some query ->
  api_fault env (length (trace w)) (AnswerCallbackQuery query) = None ->
  let acked := record (ApiCall (AnswerCallbackQuery query)) w in
  (cq_data query = "vote_menu" ->
   button_handler env update context w = (Raise ValueError, acked)) /\
  (cq_data query = "service_menu" ->
   button_handler env update context w = (Raise (KeyError "menu"), acked)).
Proof.
  intros Hq Hack acked. subst acked.
  split; intros Hdata; enter_button_handler Hq; rewrite Hack, Hdata; reflexivity.
Qed.

Lemma button_handler_menu_tags_misrouted_witness :
  button_handler (calm_env []) (press "vote_menu" 42) (demo_context 42) (world_of demo_db) =
    (Raise ValueError,
     record (ApiCall (AnswerCallbackQuery (mkCallbackQuery "cbq" "vote_menu" 42)))
            (world_of demo_db)).
Proof.
  apply (button_handler_menu_tags_misrouted (calm_env []) (press "vote_menu" 42)
           (demo_context 42) (mkCallbackQuery "cbq" "vote_menu" 42) (world_of demo_db));
    reflexivity.
Defined.

(** The same for the other menu tag, evaluated. *)
Example service_menu_press :
  button_handler (calm_env []) (press "service_menu" 42) (demo_context 42) (world_of demo_db) =
    (Raise (KeyError "menu"),
     record (ApiCall (AnswerCallbackQuery (mkCallbackQuery "cbq" "service_menu" 42)))
            (world_of demo_db)).
Proof. reflexivity. Qed.

(** A tag with one of the prefixes is taken by that branch whatever follows
    the prefix. *)
Example vote_prefix_without_number :
  fst (button_handler (calm_env []) (press "vote_abc" 42) (demo_context 42)
                      (world_of demo_db)) = Raise ValueError.
Proof. reflexivity. Qed.

Example service_prefix_without_category :
  fst (button_handler (calm_env []) (press "service_xyz" 42) (demo_context 42)
                      (world_of demo_db)) = Raise (KeyError "xyz").
Proof. reflexivity. Qed.

Lemma service_menu_has_prefix data :
  String.eqb data "service_menu" = true -> startswith data "service_" = true.
Proof. by intros ->%String.eqb_eq. Qed.

Lemma vote_menu_has_prefix data :
  String.eqb data "vote_menu" = true -> startswith data "vote_" = true.
Proof. by intros ->%String.eqb_eq. Qed.




(** [find_services] is a tag the bot itself puts on a button. *)
Example find_services_is_offered :
  "find_services" ∈ map btn_callback_data (concat start_keyboard).
Proof. simpl. do 3 right. left. Qed.

(** ** Service submission *)

(** One administrator: building the message raises at the user-name lookup,
    before anything is sent; the error is logged and nothing is raised to
    the loop. *)
Lemma notify_admin_run env u t d a w :
  notify_admin env u t d a w =
    (Ok tt,
     mkWorld (db w) (user_data w) (trace w) (log w ++ [NotifyFailed a AttributeError])).
Proof. reflexivity. Qed.

Lemma notify_all_run env u t d admins : forall w,
  for_each admins (notify_admin env u t d) w =
    (Ok tt, mkWorld (db w) (user_data w) (trace w) (log w ++ notify_failures admins)).
Proof.
  induction admins as [|a admins IH]; intros w.
  - simpl. rewrite app_nil_r. by destruct w.
  - simpl for_each. unfold mbind at 1. unfold M_bind.
    rewrite notify_admin_run, IH. simpl. by rewrite <- app_assoc.
Qed.

(** The row is committed before the first notification, and the loop neither
    raises nor touches the database. *)
Lemma submit_service_run env context u t d w :
  let now := current_timestamp env (length (trace w)) in
  exists w',
    submit_service env context u t d w = (Ok tt, w') /\
    db w' = Sql.insert_service (db w) u t d now /\
    services (db w') = services (db w) ++ [service_row (db w) u t d now] /\
    user_data w' = user_data w /\
    trace w' = trace w /\
    log w' = log w ++ notify_failures (ADMIN_IDS env).
Proof.
  intros now. subst now. unfold submit_service.
  unfold mbind at 1. unfold M_bind at 1.
  set (w1 := set_db (Sql.insert_service (db w) u t d
                       (current_timestamp env (length (trace w)))) w).
  assert (Hins : with_connection
                   (now ← sql_now env;
                    execute (fun d0 => Ok (Sql.insert_service d0 u t d now))) w = (Ok tt, w1))
    by reflexivity.
  rewrite Hins, notify_all_run. eexists. split; [reflexivity|]. by subst w1.
Qed.

(** C7. [submit_service] always ends normally with the service row
    committed.  The loop reaches every configured administrator: for each
    of them, in order, the attempt fails (the user-name lookup of the
    message raises [AttributeError]), the failure is caught and logged
    under that administrator's id, and the loop goes on.  The log gains
    exactly one record per administrator and nothing else; no request is
    sent; the row is the one inserted before the loop. *)
Theorem submit_service_isolates_notification_failures
        env context user_id service_type description w :
  let now := current_timestamp env (length (trace w)) in
  let '(r, w') := submit_service env context user_id service_type description w in
  r = Ok tt /\
  services (db w') =
    services (db w) ++ [service_row (db w) user_id service_type description now] /\
  log w' = log w ++ map (fun admin_id => NotifyFailed admin_id AttributeError) (ADMIN_IDS env) /\
  trace w' = trace w.
Proof.
  intros now.
  destruct (submit_service_run env context user_id service_type description w)
    as (w' & -> & _ & Hrow & _ & Htrace & Hlog).
  split; [done|]. split; [exact Hrow|]. split; [exact Hlog | exact Htrace].
Qed.

(** Three administrators, the second has blocked the bot.  It makes no
    difference: no message is ever built, each attempt is logged in turn,
    and the row is in. *)
Example three_admins :
  submit_service (patchy_env [101; 102; 103] [102]) (demo_context 42) 42 "dev"
                 "build me a dapp" (world_of demo_db) =
  (Ok tt,
   mkWorld (mkDB [demo_project]
                 [mkService 1 42 "dev" (Some "build me a dapp") None (Some 1)
                            (Some "2024-05-01 12:00:00")]
                 [] seed_wallets 1)
           ∅
           []
           [NotifyFailed 101 AttributeError;
            NotifyFailed 102 AttributeError;
            NotifyFailed 103 AttributeError]).
Proof. reflexivity. Qed.

(** Had the lookup given a name, the message would have carried the first
    1000 characters of the description. *)
Example msg_new_submission_text :
  msg_new_submission "dev" (Some "alice") "build me a dapp" =
  "🆕 New Service Submission:" +:+ nl +:+ nl +:+
  "Type: 💻 Web3 Development" +:+ nl +:+
  "From: @alice" +:+ nl +:+
  "Details: build me a dapp".
Proof. reflexivity. Qed.

(** ** The two-step submission *)

Lemma bind_get_user_data {B : Type} context (k : gmap string string -> M B) w :
  (get_user_data context ≫= k) w = k (the_user_data context w) w.
Proof. reflexivity. Qed.

(** No category pending: the message is ignored. *)
Lemma handle_service_description_idle env update context w :
  the_user_data context w !! "awaiting_service" = None ->
  handle_service_description env update context w = (Ok tt, w).
Proof.
  intros Hnone. unfold handle_service_description.
  rewrite bind_get_user_data, Hnone. reflexivity.
Qed.

(** A category pending: the service is submitted, the flag is deleted, then
    the confirmation is sent. *)
Lemma handle_service_description_pending env update context message user category w :
  the_user_data context w !! "awaiting_service" = Some category ->
  upd_message update = Some message ->
  upd_effective_user update = Some user ->
  exists w1,
    submit_service env context user category (msg_text message) w = (Ok tt, w1) /\
    let reply := SendMessage (msg_chat_id message) msg_service_submitted None None in
    handle_service_description env update context w =
      (match api_fault env (length (trace w1)) reply with
       | None => Ok tt
       | Some e => Raise e
       end,
       record (ApiCall reply) (flag_cleared context w1)).
Proof.
  intros Hflag Hmsg Huser.
  destruct (submit_service_run env context user category (msg_text message) w)
    as (w1 & Hrun & _ & _ & Hud & _).
  exists w1. split; [exact Hrun|]. cbv zeta.
  unfold handle_service_description.
  rewrite bind_get_user_data, Hflag, Hmsg, bind_getattr, Huser, bind_getattr.
  unfold mbind at 1. unfold M_bind at 1. rewrite Hrun.
  assert (Hflag1 : the_user_data context w1 !! "awaiting_service" = Some category).
  { unfold the_user_data in *. by rewrite Hud. }
  unfold mbind, M_bind, user_data_delitem. rewrite Hflag1.
  unfold reply_text, call_api. simpl.
  by destruct (api_fault env (length (trace w1)) _).
Qed.

Lemma startswith_service_not_vote s : startswith ("service_" +:+ s) "vote_" = false.
Proof. reflexivity. Qed.

(** A press on a category button of the service keyboard asks for the
    description and sets the flag. *)
Lemma button_handler_service env update context query category label w :
  upd_callback_query update = Some query ->
  cq_data query = "service_" +:+ category ->
  dict_get SERVICE_TYPES category = Some label ->
  let n := length (trace w) in
  let prompt := EditMessageText query (msg_describe_service label) None in
  api_fault env n (AnswerCallbackQuery query) = None ->
  api_fault env (S n) prompt = None ->
  button_handler env update context w =
    (Ok tt,
     mkWorld (db w)
             (<[ctx_user_id context := <["awaiting_service" := category]>
                                         (the_user_data context w)]> (user_data w))
             (trace w ++ [ApiCall (AnswerCallbackQuery query); ApiCall prompt])
             (log w)).
Proof.
  intros Hq Hdata Hlabel n prompt Hack Hedit. subst n prompt.
  enter_button_handler Hq. rewrite Hack, Hdata.
  rewrite startswith_service_not_vote, startswith_app.
  change (slice_from 8 ("service_" +:+ category)) with category.
  unfold dict_index. rewrite Hlabel.
  unfold mbind, M_bind, lift, call_api, user_data_setitem. simpl.
  rewrite length_app, Nat.add_1_r. simpl. rewrite Hedit. simpl.
  unfold the_user_data. simpl. by rewrite <- app_assoc.
Qed.

(** C5. A user presses a category button of the service keyboard and
    Telegram accepts the acknowledgement and the prompt: the flag holds the
    category.  The user's next text message then adds exactly one service
    row, with that category and the message text as description, and the
    flag is gone, whatever happens to the notifications and to the
    confirmation.  One more message from the user changes nothing at
    all. *)
Theorem category_then_description
        env press_update text_update later_update ctx1 ctx2 ctx3
        query message user category label w :
  upd_callback_query press_update = Some query ->
  cq_data query = "service_" +:+ category ->
  dict_get SERVICE_TYPES category = Some label ->
  api_fault env (length (trace w)) (AnswerCallbackQuery query) = None ->
  api_fault env (S (length (trace w)))
            (EditMessageText query (msg_describe_service label) None) = None ->
  ctx_user_id ctx1 = user -> ctx_user_id ctx2 = user -> ctx_user_id ctx3 = user ->
  upd_message text_update = Some message ->
  upd_effective_user text_update = Some user ->
  let '(r1, w1) := button_handler env press_update ctx1 w in
  let '(r2, w2) := handle_service_description env text_update ctx2 w1 in
  let '(r3, w3) := handle_service_description env later_update ctx3 w2 in
  r1 = Ok tt /\
  db w1 = db w /\
  the_user_data ctx1 w1 !! "awaiting_service" = Some category /\
  services (db w2) =
    services (db w) ++
    [service_row (db w) user category (msg_text message)
                 (current_timestamp env (S (S (length (trace w)))))] /\
  the_user_data ctx2 w2 !! "awaiting_service" = None /\
  r3 = Ok tt /\
  w3 = w2.
Proof.
  intros Hq Hdata Hlabel Hack Hedit Hc1 Hc2 Hc3 Hmsg Huser.
  rewrite (button_handler_service env press_update ctx1 query category label w)
    by done.
  match goal with |- context [handle_service_description env text_update ctx2 ?x] =>
    set (w1 := x) end.
  assert (Hflag : the_user_data ctx2 w1 !! "awaiting_service" = Some category).
  { unfold the_user_data. subst w1. simpl. rewrite Hc1, Hc2, lookup_insert_eq. simpl.
    apply lookup_insert_eq. }
  destruct (handle_service_description_pending env text_update ctx2 message user
              category w1 Hflag Hmsg Huser) as (w1' & Hrun & Hstep).
  destruct (submit_service_run env ctx2 user category (msg_text message) w1)
    as (w1'' & Hrun' & _ & Hrow & Hud & _).
  rewrite Hrun in Hrun'. injection Hrun' as <-.
  cbv zeta in Hstep. rewrite Hstep.
  match goal with |- context [handle_service_description env later_update ctx3 ?x] =>
    set (w2 := x) end.
  assert (Hgone2 : the_user_data ctx2 w2 !! "awaiting_service" = None).
  { unfold the_user_data. subst w2. simpl. rewrite lookup_insert_eq. simpl.
    apply lookup_delete_eq. }
  assert (Hgone3 : the_user_data ctx3 w2 !! "awaiting_service" = None).
  { unfold the_user_data in *. by rewrite Hc3, <- Hc2. }
  rewrite (handle_service_description_idle env later_update ctx3 w2 Hgone3).
  split; [done|]. split; [done|].
  split; [unfold the_user_data; simpl; rewrite lookup_insert_eq; simpl;
          apply lookup_insert_eq|].
  split; [|done].
  subst w2. simpl. rewrite Hrow. subst w1. simpl.
  rewrite length_app. simpl. by rewrite Nat.add_comm.
Qed.

Lemma category_then_description_witness :
  let env := patchy_env [101] [101; 42] in
  let '(r1, w1) := button_handler env (press "service_dev" 42) (demo_context 42)
                                  (world_of demo_db) in
  let '(r2, w2) := handle_service_description env (text_message "build me a dapp" 42)
                                              (demo_context 42) w1 in
  let '(r3, w3) := handle_service_description env (text_message "and a website" 42)
                                              (demo_context 42) w2 in
  r1 = Ok tt /\
  db w1 = demo_db /\
  the_user_data (demo_context 42) w1 !! "awaiting_service" = Some "dev" /\
  services (db w2) =
    [mkService 1 42 "dev" (Some "build me a dapp") None (Some 1)
               (Some "2024-05-01 12:00:00")] /\
  the_user_data (demo_context 42) w2 !! "awaiting_service" = None /\
  r3 = Ok tt /\
  w3 = w2.
Proof.
  apply (category_then_description
           (patchy_env [101] [101; 42])
           (press "service_dev" 42) (text_message "build me a dapp" 42)
           (text_message "and a website" 42)
           (demo_context 42) (demo_context 42) (demo_context 42)
           (mkCallbackQuery "cbq" "service_dev" 42) (mkMessage 42 "build me a dapp")
           42 "dev" "💻 Web3 Development" (world_of demo_db));
    reflexivity.
Defined.

(** ** The promote command *)

Example command_args_of_text :
  command_args "/promote build me a dapp" = ["build"; "me"; "a"; "dapp"] /\
  command_args "/promote" = [] /\
  command_payload "/promote build me a dapp" = "build me a dapp".
Proof. repeat split. Qed.




(** The menu case, evaluated. *)
Example promote_without_arguments :
  promote_service (calm_env [101]) (text_message "/promote" 42) (demo_context 42)
                  (world_of demo_db) =
  (Ok tt,
   record (ApiCall (SendMessage 42 msg_select_service_type (Some service_keyboard) None))
          (world_of demo_db)).
Proof. reflexivity. Qed.

(** ** Start-up and wallets *)

Lemma create_schema_file_of d : Sql.create_schema (file_of d) = d.
Proof. by destruct d. Qed.

Lemma init_db_seeded d : wallets d <> [] -> init_db (file_of d) = Ok d.
Proof.
  intros Hne. unfold init_db. rewrite create_schema_file_of.
  unfold Sql.select_one_wallet. by destruct (wallets d).
Qed.

Lemma show_wallets_run env update context message w :
  upd_message update = Some message ->
  let reply := SendMessage (msg_chat_id message) (msg_wallets (Sql.select_wallets (db w)))
                           None (Some "HTML") in
  show_wallets env update context w =
    (match api_fault env (length (trace w)) reply with
     | None => Ok tt
     | Some e => Raise e
     end,
     record (ApiCall reply) w).
Proof.
  intros Hmsg reply. subst reply. unfold show_wallets.
  unfold mbind at 1. unfold M_bind at 1. unfold with_connection, fetch.
  rewrite Hmsg, bind_getattr. unfold reply_text, call_api.
  by destruct (api_fault env (length (trace w)) _).
Qed.

Lemma show_wallets_needs_message env update context w :
  upd_message update = None ->
  show_wallets env update context w = (Raise AttributeError, w).
Proof.
  intros Hmsg. unfold show_wallets.
  unfold mbind at 1. unfold M_bind at 1. unfold with_connection, fetch.
  by rewrite Hmsg.
Qed.

(** X22. [init_db] succeeds on every file, keeps the rows of every table that
    was already there, and running it again on its own result changes
    nothing.  The wallets table is left alone when it has a row and
    receives exactly the BTC and ETH rows when it is missing or empty.
    On a database whose wallets table is the one so seeded, [show_wallets]
    on an update that carries a message, as the [/wallets] command does,
    replies with those two entries and nothing else. *)
Theorem init_db_idempotent_and_seeds f :
  exists d,
    init_db f = Ok d /\
    init_db (file_of d) = Ok d /\
    projects d = Sql.create_table_if_not_exists (f_projects f) /\
    services d = Sql.create_table_if_not_exists (f_services f) /\
    votes d = Sql.create_table_if_not_exists (f_votes f) /\
    wallets d = match f_wallets f with
                | Some (row :: rows) => row :: rows
                | _ => seed_wallets
                end /\
    (f_wallets f = None \/ f_wallets f = Some [] ->
     forall env update context message w,
       upd_message update = Some message ->
       wallets (db w) = wallets d ->
       let reply := SendMessage (msg_chat_id message) seeded_wallets_text None (Some "HTML") in
       show_wallets env update context w =
         (match api_fault env (length (trace w)) reply with
          | None => Ok tt
          | Some e => Raise e
          end,
          record (ApiCall reply) w)).
Proof.
  destruct f as [fp fs fv [[|row rows]|] seq].
  - (* an empty wallets table *)
    eexists. split; [reflexivity|]. split; [by apply init_db_seeded|].
    do 4 (split; [reflexivity|]).
    intros _ env update context message w Hmsg Hw.
    rewrite (show_wallets_run env update context message w Hmsg).
    unfold Sql.select_wallets. rewrite Hw. reflexivity.
  - (* wallets already there *)
    eexists. split; [reflexivity|]. split; [by apply init_db_seeded|].
    do 4 (split; [reflexivity|]).
    intros [H | H]; discriminate.
  - (* no wallets table *)
    eexists. split; [reflexivity|]. split; [by apply init_db_seeded|].
    do 4 (split; [reflexivity|]).
    intros _ env update context message w Hmsg Hw.
    rewrite (show_wallets_run env update context message w Hmsg).
    unfold Sql.select_wallets. rewrite Hw. reflexivity.
Qed.

Lemma init_db_idempotent_and_seeds_witness :
  exists d,
    init_db new_file = Ok d /\
    init_db (file_of d) = Ok d /\
    wallets d = seed_wallets /\
    show_wallets (calm_env []) (text_message "/wallets" 42) (demo_context 42) (world_of d) =
      (Ok tt,
       record (ApiCall (SendMessage 42 seeded_wallets_text None (Some "HTML"))) (world_of d)).
Proof.
  destruct (init_db_idempotent_and_seeds new_file)
    as (d & Hinit & Hagain & _ & _ & _ & Hwallets & Hshow).
  exists d. split; [exact Hinit|]. split; [exact Hagain|]. split; [exact Hwallets|].
  apply (Hshow (or_introl eq_refl) (calm_env []) (text_message "/wallets" 42)
               (demo_context 42) (mkMessage 42 "/wallets") (world_of d));
    reflexivity.
Defined.

(** C6, at the input where the code departs from it.  A press on the
    wallets button of the start keyboard is a callback-query update: it
    carries no message.  [show_wallets] reads the rows and then raises
    [AttributeError] at [update.message.reply_text].  After the
    acknowledgement nothing is sent: the request returns no entry at all,
    whatever the wallets table holds, the freshly seeded one included. *)
Theorem wallets_button_shows_nothing env update context query w :
  upd_callback_query update = Some query ->
  cq_data query = "wallets" ->
  upd_message update = None ->
  api_fault env (length (trace w)) (AnswerCallbackQuery query) = None ->
  button_handler env update context w =
    (Raise AttributeError, record (ApiCall (AnswerCallbackQuery query)) w).
Proof.
  intros Hq Hdata Hmsg Hack.
  rewrite (button_handler_wallets env update context query w Hq Hdata Hack).
  by apply show_wallets_needs_message.
Qed.

Lemma wallets_button_shows_nothing_witness :
  init_db new_file = Ok (mkDB [] [] [] seed_wallets 0) /\
  button_handler (calm_env []) (press "wallets" 42) (demo_context 42)
                 (world_of (mkDB [] [] [] seed_wallets 0)) =
    (Raise AttributeError,
     record (ApiCall (AnswerCallbackQuery (mkCallbackQuery "cbq" "wallets" 42)))
            (world_of (mkDB [] [] [] seed_wallets 0))).
Proof.
  split; [reflexivity|].
  apply (wallets_button_shows_nothing (calm_env []) (press "wallets" 42) (demo_context 42)
           (mkCallbackQuery "cbq" "wallets" 42) (world_of (mkDB [] [] [] seed_wallets 0)));
    reflexivity.
Defined.

(** A file that already holds one wallet keeps it and gets no seed. *)
Example init_db_keeps_wallets :
  init_db (mkDBFile None None None (Some [mkWallet "SOL" "So11111111111111111111111111111111111111112"]) 0) =
  Ok (mkDB [] [] [] [mkWallet "SOL" "So11111111111111111111111111111111111111112"] 0).
Proof. reflexivity. Qed.

(** ** Market trends *)

(** X21. When [requests.get] raises a [RequestException] (timeout, connection
    error, ...) or returns a status that [raise_for_status] rejects, and the
    update carries a message to reply to, as the [/trends] command does,
    [crypto_trends] logs the error and sends exactly one reply, the fallback
    text.  The handler ends normally unless Telegram refuses that reply. *)
Theorem crypto_trends_fallback env update context message w :
  upd_message update = Some message ->
  let n := length (trace w) in
  let outcome := http_get env n markets_url trends_params 10 in
  market_call_failed outcome ->
  let fallback := SendMessage (msg_chat_id message) msg_trends_fallback None None in
  let '(r, w') := crypto_trends env update context w in
  trace w' = trace w ++ [HttpGet markets_url trends_params 10; ApiCall fallback] /\
  db w' = db w /\
  user_data w' = user_data w /\
  log w' = log w ++ [TrendsApiError (market_error outcome)] /\
  r = match api_fault env (S n) fallback with
      | None => Ok tt
      | Some e => Raise e
      end.
Proof.
  intros Hmsg n outcome Hfail fallback. subst n fallback.
  unfold crypto_trends, try_except.
  unfold mbind at 1. unfold M_bind at 1. unfold requests_get.
  fold markets_url. fold outcome.
  assert (Hlen : length (trace (record (HttpGet markets_url trends_params 10) w)) =
                 S (length (trace w))).
  { simpl. rewrite length_app. simpl. lia. }
  destruct outcome as [response|e] eqn:E; simpl in Hfail.
  - unfold raise_for_status.
    assert (Hst : (400 <=? status_code response) && (status_code response <? 600) = true).
    { apply andb_true_iff. split; [apply Z.leb_le | apply Z.ltb_lt]; lia. }
    unfold mbind at 1. unfold M_bind at 1. rewrite Hst. unfold raise. simpl is_RequestException.
    cbv iota. rewrite Hmsg. unfold mbind, M_bind, logger_error, getattr, mret, M_ret,
      reply_text, call_api. simpl.
    rewrite length_app, Nat.add_1_r. simpl.
    destruct (api_fault env (S (length (trace w))) _); simpl;
      by rewrite <- app_assoc.
  - destruct e as [|k| | | | |]; try done. simpl is_RequestException. cbv iota.
    rewrite Hmsg. unfold mbind, M_bind, logger_error, getattr, mret, M_ret,
      reply_text, call_api. simpl.
    rewrite length_app, Nat.add_1_r. simpl.
    destruct (api_fault env (S (length (trace w))) _); simpl;
      by rewrite <- app_assoc.
Qed.

Lemma crypto_trends_fallback_witness :
  let w := world_of demo_db in
  let fallback := SendMessage 42 msg_trends_fallback None None in
  let '(r, w') := crypto_trends (patchy_env [] []) (text_message "/trends" 42)
                                (demo_context 42) w in
  trace w' = trace w ++ [HttpGet markets_url trends_params 10; ApiCall fallback] /\
  db w' = db w /\
  user_data w' = user_data w /\
  log w' = log w ++ [TrendsApiError (RequestException (HTTPError 503))] /\
  r = Ok tt.
Proof.
  apply (crypto_trends_fallback (patchy_env [] []) (text_message "/trends" 42)
           (demo_context 42) (mkMessage 42 "/trends") (world_of demo_db)).
  - reflexivity.
  - simpl. lia.
Defined.

(** The same with a timeout. *)
Example trends_timeout :
  crypto_trends (calm_env []) (text_message "/trends" 42) (demo_context 42)
                (world_of demo_db) =
  (Ok tt,
   mkWorld demo_db ∅
           [HttpGet markets_url trends_params 10;
            ApiCall (SendMessage 42 msg_trends_fallback None None)]
           [TrendsApiError (RequestException Timeout)]).
Proof. reflexivity. Qed.

(** Without a message to reply to, [crypto_trends] never ends normally,
    whatever the market call returns. *)
Lemma crypto_trends_needs_message env update context w :
  upd_message update = None ->
  exists e, fst (crypto_trends env update context w) = Raise e.
Proof.
  intros Hmsg. unfold crypto_trends, try_except.
  unfold mbind at 1. unfold M_bind at 1. unfold requests_get.
  destruct (http_get env _ _ _ _) as [response|e].
  - unfold mbind at 1. unfold M_bind at 1. unfold raise_for_status.
    destruct ((400 <=? status_code response) && (status_code response <? 600)).
    + unfold raise. simpl. rewrite Hmsg. by eexists.
    + unfold mret, M_ret. unfold mbind at 1. unfold M_bind at 1. unfold lift.
      destruct (_ ≫= _) as [trends|e] eqn:E.
      * rewrite Hmsg. simpl. by eexists.
      * destruct (is_RequestException e) eqn:Ee; [|unfold raise; by eexists].
        rewrite Hmsg. simpl. by eexists.
  - destruct (is_RequestException e) eqn:Ee; [|unfold raise; by eexists].
    rewrite Hmsg. simpl. by eexists.
Qed.

(** Without a message and with a failed market call, the error is logged
    and the fallback is never sent: reading [update.message.reply_text] in
    the [except] clause raises. *)
Lemma crypto_trends_without_message env update context w :
  upd_message update = None ->
  let outcome := http_get env (length (trace w)) markets_url trends_params 10 in
  market_call_failed outcome ->
  crypto_trends env update context w =
    (Raise AttributeError,
     mkWorld (db w) (user_data w) (trace w ++ [HttpGet markets_url trends_params 10])
             (log w ++ [TrendsApiError (market_error outcome)])).
Proof.
  intros Hmsg outcome Hfail.
  unfold crypto_trends, try_except.
  unfold mbind at 1. unfold M_bind at 1. unfold requests_get.
  fold markets_url. fold outcome.
  destruct outcome as [response|e] eqn:E; simpl in Hfail.
  - unfold raise_for_status.
    assert (Hst : (400 <=? status_code response) && (status_code response <? 600) = true).
    { apply andb_true_iff. split; [apply Z.leb_le | apply Z.ltb_lt]; lia. }
    unfold mbind at 1. unfold M_bind at 1. rewrite Hst. unfold raise. simpl is_RequestException.
    cbv iota. by rewrite Hmsg.
  - destruct e as [|k| | | | |]; try done. simpl is_RequestException. cbv iota.
    by rewrite Hmsg.
Qed.

(** C8, at the input where the code departs from it.  A press on the trends
    button of the start keyboard is a callback-query update: it carries no
    message.  When the market call fails, the error is logged, and the
    [except] clause then raises [AttributeError] at
    [update.message.reply_text]: no fallback text is sent and the error
    leaves the handler. *)
Theorem trends_button_sends_no_fallback env update context query w :
  upd_callback_query update = Some query ->
  cq_data query = "trends" ->
  upd_message update = None ->
  let n := length (trace w) in
  api_fault env n (AnswerCallbackQuery query) = None ->
  let outcome := http_get env (S n) markets_url trends_params 10 in
  market_call_failed outcome ->
  button_handler env update context w =
    (Raise AttributeError,
     mkWorld (db w) (user_data w)
             (trace w ++ [ApiCall (AnswerCallbackQuery query);
                          HttpGet markets_url trends_params 10])
             (log w ++ [TrendsApiError (market_error outcome)])).
Proof.
  intros Hq Hdata Hmsg n Hack outcome Hfail. subst n.
  rewrite (button_handler_trends env update context query w Hq Hdata Hack).
  assert (Hlen : length (trace (record (ApiCall (AnswerCallbackQuery query)) w)) =
                 S (length (trace w))).
  { simpl. rewrite length_app. simpl. lia. }
  rewrite crypto_trends_without_message.
  - rewrite Hlen. fold outcome. simpl. by rewrite <- app_assoc.
  - exact Hmsg.
  - rewrite Hlen. exact Hfail.
Qed.

Lemma trends_button_sends_no_fallback_witness :
  button_handler (calm_env []) (press "trends" 42) (demo_context 42) (world_of demo_db) =
    (Raise AttributeError,
     mkWorld demo_db ∅
             [ApiCall (AnswerCallbackQuery (mkCallbackQuery "cbq" "trends" 42));
              HttpGet markets_url trends_params 10]
             [TrendsApiError (RequestException Timeout)]).
Proof.
  apply (trends_button_sends_no_fallback (calm_env []) (press "trends" 42) (demo_context 42)
           (mkCallbackQuery "cbq" "trends" 42) (world_of demo_db)); reflexivity.
Defined.

(** The same for a [/trends] command that arrives as an edit of an earlier
    message. *)
Example trends_without_message :
  crypto_trends (calm_env []) (mkUpdate None None (Some 42)) (demo_context 42)
                (world_of demo_db) =
  (Raise AttributeError,
   mkWorld demo_db ∅ [HttpGet markets_url trends_params 10]
           [TrendsApiError (RequestException Timeout)]).
Proof. reflexivity. Qed.

(** ** The voting menu *)

Example top_projects_order :
  Sql.select_top_projects
    (mkDB [mkProject 1 "a" None (Some 1) None None;
           mkProject 2 "b" None (Some 3) None None;
           mkProject 3 "c" None None None None;
           mkProject 4 "d" None (Some 3) None None] [] [] [] 0) =
  [(2, "b", Some 3); (4, "d", Some 3); (1, "a", Some 1); (3, "c", None)].
Proof. reflexivity. Qed.

(** Every button of the voting menu, once pressed, votes for the project it
    names. *)
Example vote_menu_then_press :
  let env := calm_env [] in
  let '(_, w1) := vote_project env (text_message "/vote" 42) (demo_context 42)
                               (world_of demo_db) in
  last (trace w1) =
    Some (ApiCall (SendMessage 42 msg_vote_header
                               (Some [[mkButton "zk-rollup (👍 0)" "vote_7"]]) None)) /\
  projects (db (snd (button_handler env (press "vote_7" 42) (demo_context 42) w1))) =
    [mkProject 7 "zk-rollup" None (Some 1) None (Some "2024-04-30 09:00:00")].
Proof. split; reflexivity. Qed.

(** * Further properties *)

(** ** Relations that pass through the monad *)

Section Respects.

Context (R : World -> World -> Prop) `{!Frame R}.

Lemma respects_ret {A : Type} (a : A) : respects R (mret a : M A).
Proof. intros w. apply frame_refl. Qed.

Lemma respects_raise {A : Type} e : respects R (raise e : M A).
Proof. intros w. apply frame_refl. Qed.

Lemma respects_lift {A : Type} (r : result A) : respects R (lift r).
Proof. intros w. apply frame_refl. Qed.

Lemma respects_getattr {A : Type} (o : option A) : respects R (getattr o).
Proof. destruct o; [apply respects_ret | apply respects_raise]. Qed.

Lemma respects_fetch {A : Type} (q : DB -> A) : respects R (fetch q).
Proof. intros w. apply frame_refl. Qed.

Lemma respects_get_user_data context : respects R (get_user_data context).
Proof. intros w. apply frame_refl. Qed.

Lemma respects_sql_now env : respects R (sql_now env).
Proof. intros w. apply frame_refl. Qed.

Lemma respects_bind {A B : Type} (m : M A) (k : A -> M B) :
  respects R m -> (forall a, respects R (k a)) -> respects R (m ≫= k).
Proof.
  intros Hm Hk w. unfold mbind, M_bind. specialize (Hm w).
  destruct (m w) as [[a|e] w1]; simpl in *; [|done].
  eapply frame_trans; [exact Hm | apply Hk].
Qed.

Lemma respects_try_except {A : Type} (body : M A) (handler : exn -> M A) :
  respects R body -> (forall e, respects R (handler e)) ->
  respects R (try_except body handler).
Proof.
  intros Hb Hh w. unfold try_except. specialize (Hb w).
  destruct (body w) as [[a|e] w1]; simpl in *; [done|].
  eapply frame_trans; [exact Hb | apply Hh].
Qed.

Lemma respects_with_connection {A : Type} (body : M A) :
  respects R body -> respects R (with_connection body).
Proof.
  intros Hb w. unfold with_connection. specialize (Hb w).
  destruct (body w) as [[a|e] w1]; simpl in *; [done|]. by apply frame_rollback.
Qed.

Lemma respects_for_each {A : Type} (l : list A) (body : A -> M unit) :
  (forall a, respects R (body a)) -> respects R (for_each l body).
Proof.
  intros Hb. induction l as [|a l IH]; simpl; [apply respects_ret|].
  apply respects_bind; [apply Hb | intros _; exact IH].
Qed.

End Respects.

(** One step through a handler's body: a combinator of the monad, a
    primitive that changes nothing, or a case split on a test. *)
Ltac respects_step :=
  lazymatch goal with
  | |- respects ?R _ =>
      first
        [ apply (respects_bind R); [| intros ?]
        | apply (respects_try_except R); [| intros ?]
        | apply (respects_with_connection R)
        | apply (respects_for_each R); intros ?
        | apply (respects_ret R) | apply (respects_raise R) | apply (respects_lift R)
        | apply (respects_getattr R) | apply (respects_fetch R)
        | apply (respects_get_user_data R) | apply (respects_sql_now R)
        | match goal with
          | |- respects _ (if ?b then _ else _) => destruct b
          | |- respects _ (match ?x with _ => _ end) => destruct x
          end ]
  end.

(** ** The voting menu *)

Lemma votes_lt_asym a b : Sql.votes_lt a b = true -> Sql.votes_lt b a = false.
Proof. destruct a, b; simpl; try done. intros H%Z.ltb_lt. apply Z.ltb_ge. lia. Qed.

Lemma votes_ge_trans a b c :
  Sql.votes_lt a b = false -> Sql.votes_lt b c = false -> Sql.votes_lt a c = false.
Proof.
  destruct a, b, c; simpl; try done.
  intros H1%Z.ltb_ge H2%Z.ltb_ge. apply Z.ltb_ge. lia.
Qed.

Lemma insert_desc_perm p l : Sql.insert_desc p l ≡ₚ p :: l.
Proof.
  induction l as [|q l IH]; simpl; [done|].
  destruct (Sql.votes_lt _ _); [|done]. rewrite IH. apply Permutation_swap.
Qed.

Lemma insert_desc_sorted p l :
  StronglySorted votes_desc l -> StronglySorted votes_desc (Sql.insert_desc p l).
Proof.
  induction 1 as [|q l Hs IH Hq]; simpl; [repeat constructor|].
  destruct (Sql.votes_lt (p_votes p) (p_votes q)) eqn:E.
  - constructor; [done|]. rewrite insert_desc_perm. constructor; [|done].
    by apply votes_lt_asym.
  - constructor; [by constructor|]. constructor; [done|].
    eapply Forall_impl; [exact Hq|]. intros r Hr. unfold votes_desc in *.
    by eapply votes_ge_trans.
Qed.

Lemma sort_desc_perm l : fold_right Sql.insert_desc [] l ≡ₚ l.
Proof. induction l as [|p l IH]; simpl; [done|]. by rewrite insert_desc_perm, IH. Qed.

Lemma sort_desc_sorted l : StronglySorted votes_desc (fold_right Sql.insert_desc [] l).
Proof. induction l as [|p l IH]; simpl; [constructor|]. by apply insert_desc_sorted. Qed.

Lemma select_top_projects_split d :
  exists chosen rest,
    Sql.select_top_projects d = map project_row chosen /\
    chosen ++ rest ≡ₚ projects d /\
    StronglySorted votes_desc (chosen ++ rest) /\
    length chosen = Nat.min 10 (length (projects d)).
Proof.
  exists (take 10 (fold_right Sql.insert_desc [] (projects d))),
         (drop 10 (fold_right Sql.insert_desc [] (projects d))).
  rewrite take_drop. split; [reflexivity|]. split; [apply sort_desc_perm|].
  split; [apply sort_desc_sorted|].
  rewrite length_take. by rewrite sort_desc_perm.
Qed.

(** X1. The rows of the voting menu are the first ten of the projects table
    arranged by votes, highest first (NULL counts as lowest): the table is
    a rearrangement of the chosen rows followed by the rest, that
    arrangement never puts fewer votes before more, and ten rows are
    chosen, or all of them when the table has fewer. *)
Theorem select_top_projects_top_ten d :
  exists chosen rest,
    Sql.select_top_projects d = map project_row chosen /\
    chosen ++ rest ≡ₚ projects d /\
    StronglySorted votes_desc (chosen ++ rest) /\
    length chosen = Nat.min 10 (length (projects d)).
Proof.
  pose (sorted := fold_right Sql.insert_desc [] (projects d)).
  assert (Hperm : sorted ≡ₚ projects d) by apply sort_desc_perm.
  exists (take 10 sorted), (drop 10 sorted).
  rewrite take_drop. split; [reflexivity|]. split; [exact Hperm|].
  split; [apply sort_desc_sorted|].
  rewrite length_take. f_equal. by apply Permutation_length.
Qed.

Lemma select_top_projects_length d :
  length (Sql.select_top_projects d) = Nat.min 10 (length (projects d)).
Proof.
  destruct (select_top_projects_split d) as (chosen & rest & -> & _ & _ & Hlen).
  by rewrite length_map.
Qed.

Lemma select_top_projects_elem row d :
  row ∈ Sql.select_top_projects d -> exists p, p ∈ projects d /\ row = project_row p.
Proof.
  destruct (select_top_projects_split d) as (chosen & rest & -> & Hperm & _ & _).
  intros (p & -> & Hp)%list_elem_of_fmap. exists p. split; [|done].
  rewrite <- Hperm. apply elem_of_app. by left.
Qed.



(** X3. Every button of a voting menu, when pressed, casts the presser's vote
    for a project that was in the table the menu was built from: the tag
    [vote_<id>] written by [vote_project] is read back by [button_handler]
    as the same id. *)
Theorem vote_menu_button_votes env update context query button d w :
  button ∈ concat (map project_button (Sql.select_top_projects d)) ->
  upd_callback_query update = Some query ->
  cq_data query = btn_callback_data button ->
  api_fault env (length (trace w)) (AnswerCallbackQuery query) = None ->
  exists p,
    p ∈ projects d /\
    button_handler env update context w =
      process_vote env context (cq_from_user query) (p_id p)
                   (record (ApiCall (AnswerCallbackQuery query)) w).
Proof.
  intros Hbutton Hq Hdata Hack.
  apply list_elem_of_In, in_concat in Hbutton as (row_buttons & Hrow & Hin).
  apply list_elem_of_In in Hrow, Hin.
  apply list_elem_of_fmap in Hrow as (row & -> & Hrow).
  destruct (select_top_projects_elem row d Hrow) as (p & Hp & ->).
  exists p. split; [done|].
  unfold project_row, project_button in Hin. apply list_elem_of_singleton in Hin.
  subst button. simpl in Hdata.
  by apply button_handler_vote.
Qed.

Lemma vote_menu_button_votes_witness :
  exists p,
    p ∈ projects demo_db /\
    button_handler (calm_env []) (press "vote_7" 42) (demo_context 42) (world_of demo_db) =
      process_vote (calm_env []) (demo_context 42) 42 (p_id p)
                   (record (ApiCall (AnswerCallbackQuery (mkCallbackQuery "cbq" "vote_7" 42)))
                           (world_of demo_db)).
Proof.
  apply (vote_menu_button_votes (calm_env []) (press "vote_7" 42) (demo_context 42)
           (mkCallbackQuery "cbq" "vote_7" 42) (mkButton "zk-rollup (👍 0)" "vote_7")
           demo_db (world_of demo_db)); [|reflexivity..].
  simpl. by left.
Defined.

(** ** The category menu *)

(** X4. Every button of the category keyboard, when pressed and accepted by
    Telegram, is taken as a category: the prompt names the button's own
    label and the presser's flag is set to the key of [SERVICE_TYPES] that
    carries this label.  Nothing else changes. *)
Theorem category_button_sets_flag env update context query button w :
  button ∈ concat service_keyboard ->
  upd_callback_query update = Some query ->
  cq_data query = btn_callback_data button ->
  let n := length (trace w) in
  let prompt := EditMessageText query (msg_describe_service (btn_text button)) None in
  api_fault env n (AnswerCallbackQuery query) = None ->
  api_fault env (S n) prompt = None ->
  exists category,
    dict_get SERVICE_TYPES category = Some (btn_text button) /\
    button_handler env update context w =
      (Ok tt,
       mkWorld (db w)
               (<[ctx_user_id context := <["awaiting_service" := category]>
                                           (the_user_data context w)]> (user_data w))
               (trace w ++ [ApiCall (AnswerCallbackQuery query); ApiCall prompt])
               (log w)).
Proof.
  intros Hbutton Hq Hdata n prompt Hack Hprompt. subst n prompt.
  apply list_elem_of_In in Hbutton. simpl in Hbutton.
  repeat (destruct Hbutton as [<- | Hbutton]);
    [eexists; split; [|apply button_handler_service; [exact Hq | exact Hdata | | exact Hack | exact Hprompt]]; reflexivity .. | done].
Qed.

Lemma category_button_sets_flag_witness :
  exists category,
    dict_get SERVICE_TYPES category = Some "🎨 NFT/Web3 Design" /\
    the_user_data (demo_context 42)
      (snd (button_handler (calm_env []) (press "service_design" 42) (demo_context 42)
                           (world_of demo_db))) !! "awaiting_service" = Some category.
Proof.
  destruct (category_button_sets_flag (calm_env []) (press "service_design" 42)
              (demo_context 42) (mkCallbackQuery "cbq" "service_design" 42)
              (mkButton "🎨 NFT/Web3 Design" "service_design") (world_of demo_db))
    as (category & Hlabel & Hrun); [| reflexivity..|].
  { simpl. do 5 right. by left. }
  exists category. split; [exact Hlabel|]. rewrite Hrun.
  unfold the_user_data. simpl. rewrite lookup_insert_eq. simpl. apply lookup_insert_eq.
Defined.

(** ** What a press can lead to *)

#[global] Instance no_menu_since_frame : Frame no_menu_since.
Proof.
  split.
  - intros w. exists []. by rewrite app_nil_r.
  - intros w1 w2 w3 (evs1 & H1 & F1) (evs2 & H2 & F2). exists (evs1 ++ evs2).
    split; [by rewrite H2, H1, <- app_assoc | by apply Forall_app].
  - intros w w' (evs & H & F). by exists evs.
Qed.

Lemma no_menu_event ev w : shows_menu ev = false -> no_menu_since w (record ev w).
Proof. intros H. exists [ev]. split; [done | by constructor]. Qed.

Lemma no_menu_call_api env c :
  shows_menu (ApiCall c) = false -> respects no_menu_since (call_api env c).
Proof.
  intros H w. unfold call_api. destruct (api_fault _ _ _); by apply no_menu_event.
Qed.

Lemma no_menu_logger_error r : respects no_menu_since (logger_error r).
Proof. intros w. exists []. by rewrite app_nil_r. Qed.

Lemma no_menu_execute stmt : respects no_menu_since (execute stmt).
Proof.
  intros w. unfold execute. destruct (stmt (db w)); exists []; by rewrite app_nil_r.
Qed.

Lemma no_menu_requests_get env url params timeout :
  respects no_menu_since (requests_get env url params timeout).
Proof. intros w. by apply no_menu_event. Qed.

Lemma no_menu_user_data_setitem context k v :
  respects no_menu_since (user_data_setitem context k v).
Proof. intros w. exists []. by rewrite app_nil_r. Qed.

Ltac no_menu_tac :=
  repeat first
    [ respects_step
    | apply no_menu_call_api; reflexivity
    | apply no_menu_logger_error | apply no_menu_execute
    | apply no_menu_requests_get | apply no_menu_user_data_setitem ].

Lemma no_menu_process_vote env context u p :
  respects no_menu_since (process_vote env context u p).
Proof. unfold process_vote, send_message. no_menu_tac. Qed.

Lemma no_menu_crypto_trends env update context :
  respects no_menu_since (crypto_trends env update context).
Proof. unfold crypto_trends, reply_text, raise_for_status. no_menu_tac. Qed.

Lemma no_menu_show_wallets env update context :
  respects no_menu_since (show_wallets env update context).
Proof. unfold show_wallets, reply_text. no_menu_tac. Qed.

(** X5. No press opens a menu.  Whatever the tag, the user, the database and
    the answers of Telegram and CoinGecko, the requests [button_handler]
    sends never include the category keyboard of [show_service_menu], the
    voting keyboard or the no-projects notice of [vote_project], or any
    other inline keyboard: the two menu branches are dead code. *)
Theorem button_handler_never_shows_menu env update context w :
  exists evs,
    trace (snd (button_handler env update context w)) = trace w ++ evs /\
    Forall (fun ev => shows_menu ev = false) evs.
Proof.
  revert w. change (respects no_menu_since (button_handler env update context)).
  unfold button_handler.
  apply (respects_bind no_menu_since); [apply (respects_getattr no_menu_since)|].
  intros query.
  apply (respects_bind no_menu_since); [by apply no_menu_call_api|]. intros _.
  destruct (startswith (cq_data query) "vote_") eqn:Evote.
  { apply (respects_bind no_menu_since); [apply (respects_lift no_menu_since)|].
    intros project_id. apply no_menu_process_vote. }
  destruct (startswith (cq_data query) "service_") eqn:Eservice.
  { no_menu_tac. }
  destruct (String.eqb (cq_data query) "service_menu") eqn:E1.
  { apply service_menu_has_prefix in E1. congruence. }
  destruct (String.eqb (cq_data query) "vote_menu") eqn:E2.
  { apply vote_menu_has_prefix in E2. congruence. }
  destruct (String.eqb (cq_data query) "trends"); [apply no_menu_crypto_trends|].
  destruct (String.eqb (cq_data query) "wallets"); [apply no_menu_show_wallets|].
  apply (respects_ret no_menu_since).
Qed.

(** The handlers the two dead branches would have called do show a menu. *)
Example show_service_menu_shows_menu :
  Exists (fun ev => shows_menu ev = true)
         (trace (snd (show_service_menu (calm_env []) (mkCallbackQuery "cbq" "service_menu" 42)
                                        (world_of demo_db)))).
Proof. by left. Qed.

Example vote_project_shows_menu :
  Exists (fun ev => shows_menu ev = true)
         (trace (snd (vote_project (calm_env []) (text_message "/vote" 42)
                                   (demo_context 42) (world_of demo_db)))).
Proof. by left. Qed.

(** ** What the handlers leave alone *)

#[global] Instance same_user_data_frame : Frame same_user_data.
Proof.
  split; unfold same_user_data.
  - done.
  - intros w1 w2 w3 H1 H2. by rewrite H2.
  - done.
Qed.

#[global] Instance only_talks_frame : Frame only_talks.
Proof.
  split; unfold only_talks.
  - done.
  - intros w1 w2 w3 [H1 H1'] [H2 H2']. by rewrite H2, H2'.
  - intros w w' [H H']. done.
Qed.

Lemma same_user_data_call_api env c : respects same_user_data (call_api env c).
Proof. intros w. unfold call_api. by destruct (api_fault _ _ _). Qed.

Lemma same_user_data_logger_error r : respects same_user_data (logger_error r).
Proof. done. Qed.

Lemma same_user_data_requests_get env url params timeout :
  respects same_user_data (requests_get env url params timeout).
Proof. done. Qed.

Lemma same_user_data_execute stmt : respects same_user_data (execute stmt).
Proof. intros w. unfold execute. by destruct (stmt (db w)). Qed.

Lemma same_user_data_get_chat u : respects same_user_data (get_chat_username u).
Proof. done. Qed.

Ltac same_user_data_tac :=
  repeat first
    [ respects_step
    | apply same_user_data_call_api | apply same_user_data_logger_error
    | apply same_user_data_requests_get | apply same_user_data_execute
    | apply same_user_data_get_chat ].

Lemma only_talks_call_api env c : respects only_talks (call_api env c).
Proof. intros w. unfold call_api. by destruct (api_fault _ _ _). Qed.

Lemma only_talks_logger_error r : respects only_talks (logger_error r).
Proof. done. Qed.

Lemma only_talks_requests_get env url params timeout :
  respects only_talks (requests_get env url params timeout).
Proof. done. Qed.

Ltac only_talks_tac :=
  repeat first
    [ respects_step
    | apply only_talks_call_api | apply only_talks_logger_error
    | apply only_talks_requests_get ].

(** X6. [start], [crypto_trends], [vote_project] and [show_wallets] only
    talk: on every path, normal or raising, the database and the per-user
    dictionaries are what they were. *)
Theorem read_only_handlers env update context w :
  only_talks w (snd (start env update context w)) /\
  only_talks w (snd (crypto_trends env update context w)) /\
  only_talks w (snd (vote_project env update context w)) /\
  only_talks w (snd (show_wallets env update context w)).
Proof.
  split; [|split; [|split]]; revert w;
    match goal with |- forall w, ?R w (snd (?m w)) => change (respects only_talks m) end.
  - unfold start, reply_text. only_talks_tac.
  - unfold crypto_trends, reply_text, raise_for_status. only_talks_tac.
  - unfold vote_project, reply_text. only_talks_tac.
  - unfold show_wallets, reply_text. only_talks_tac.
Qed.

Lemma same_user_data_submit_service env context u t d :
  respects same_user_data (submit_service env context u t d).
Proof. unfold submit_service, notify_admin, send_message. same_user_data_tac. Qed.

(** X7. A pending category survives everything but its own consumption:
    [process_vote], [submit_service] and [promote_service] (with or without
    arguments) leave every user's dictionary as it was, as do the handlers
    of X6.  So the flag set by a press is still there after any number of
    votes and commands. *)
Theorem pending_flag_survives env update context user_id project_id
        service_type description w :
  user_data (snd (process_vote env context user_id project_id w)) = user_data w /\
  user_data (snd (submit_service env context user_id service_type description w)) =
    user_data w /\
  user_data (snd (promote_service env update context w)) = user_data w.
Proof.
  split; [|split]; revert w;
    match goal with
    | |- forall w, user_data (snd (?m w)) = user_data w => change (respects same_user_data m)
    end.
  - unfold process_vote, send_message. same_user_data_tac.
  - apply same_user_data_submit_service.
  - unfold promote_service, reply_text. same_user_data_tac;
      apply same_user_data_submit_service.
Qed.

(** A press, then [/promote] with text, then a message: two services, the
    second under the category of the press. *)
Example promote_between_press_and_text :
  let env := calm_env [] in
  let w1 := snd (button_handler env (press "service_dev" 42) (demo_context 42)
                                (world_of demo_db)) in
  let w2 := snd (promote_service env (text_message "/promote audits" 42)
                                 (mkContext 42 ["audits"]) w1) in
  let w3 := snd (handle_service_description env (text_message "build me a dapp" 42)
                                            (demo_context 42) w2) in
  map (fun s => (s_id s, s_service_type s, s_description s)) (services (db w3)) =
  [(1, "custom", Some "audits"); (2, "dev", Some "build me a dapp")].
Proof. reflexivity. Qed.

(** ** More on voting *)

Lemma voted_frame d u p :
  services (voted d u p) = services d /\
  wallets (voted d u p) = wallets d /\
  seq_services (voted d u p) = seq_services d /\
  votes (voted d u p) = votes d ++ [mkVote u p] /\
  map without_votes (projects (voted d u p)) = map without_votes (projects d).
Proof.
  do 4 (split; [reflexivity|]). unfold voted. simpl. rewrite map_map.
  apply map_ext. intros pr. unfold Sql.bump. by destruct (p_id pr =? p).
Qed.

(** X8. Voting only ever adds to the votes table and only ever changes a
    project's counter.  After any run of [process_vote] calls, whatever
    Telegram answers: the services and wallets tables are as they were, the
    old vote rows are still there, in order, at the head of the table, and
    every project row has all its columns but the counter unchanged. *)
Theorem run_votes_frame env calls w :
  let w' := run_votes env calls w in
  services (db w') = services (db w) /\
  wallets (db w') = wallets (db w) /\
  seq_services (db w') = seq_services (db w) /\
  votes (db w) `prefix_of` votes (db w') /\
  map without_votes (projects (db w')) = map without_votes (projects (db w)).
Proof.
  revert w. induction calls as [|[[context u] p] calls IH]; intros w; simpl.
  - by repeat split.
  - destruct (IH (snd (process_vote env context u p w))) as (Hs & Hw & Hq & Hv & Hp).
    destruct (process_vote_db env context u p w) as [E | [_ E]]; rewrite E in *.
    + done.
    + destruct (voted_frame (db w) u p) as (Hs' & Hw' & Hq' & Hv' & Hp').
      rewrite Hs, Hw, Hq, Hp. do 3 (split; [done|]). split; [|done].
      etransitivity; [|exact Hv]. rewrite Hv'. by apply prefix_app_r.
Qed.

(** X9. The primary key of the votes table holds throughout: if no pair
    (user, project) has two rows before a run of [process_vote] calls, none
    has two rows after it, whatever Telegram answers. *)
Theorem votes_stay_unique env calls w :
  NoDup (votes (db w)) -> NoDup (votes (db (run_votes env calls w))).
Proof.
  revert w. induction calls as [|[[context u] p] calls IH]; intros w Hnd; [done|].
  simpl. apply IH. destruct (process_vote_db env context u p w) as [-> | [Hnew ->]]; [done|].
  apply has_vote_not_elem in Hnew.
  change (votes (voted (db w) u p)) with (votes (db w) ++ [mkVote u p]).
  apply NoDup_app. split; [done|]. split; [|apply NoDup_singleton].
  intros v Hv ->%list_elem_of_singleton. done.
Qed.

Lemma votes_stay_unique_witness :
  NoDup (votes (db (run_votes (calm_env [])
                              [(demo_context 11, 11, 7); (demo_context 11, 11, 7);
                               (demo_context 12, 12, 7); (demo_context 11, 11, 8)]
                              (world_of demo_db)))).
Proof.
  apply (votes_stay_unique (calm_env [])
           [(demo_context 11, 11, 7); (demo_context 11, 11, 7);
            (demo_context 12, 12, 7); (demo_context 11, 11, 8)] (world_of demo_db)).
  simpl. apply NoDup_nil_2.
Defined.



(** X11. For ids that SQLite stores: a call that ends normally makes the
    next call for the same pair a duplicate: the second call sends the
    "already voted" text and leaves the database as the first call left
    it.  This holds also when the first call ended normally only through
    the failure notice. *)
Theorem repeated_vote_is_rejected env context user_id project_id w :
  Sql.fits user_id ->
  Sql.fits project_id ->
  let '(r1, w1) := process_vote env context user_id project_id w in
  let '(r2, w2) := process_vote env context user_id project_id w1 in
  r1 = Ok tt ->
  db w2 = db w1 /\
  trace w2 = trace w1 ++ [ApiCall (SendMessage user_id msg_already_voted None None)].
Proof.
  intros _ _.
  pose proof (process_vote_leaves_row env context user_id project_id w) as Hrow.
  destruct (process_vote env context user_id project_id w) as [r1 w1]. simpl in Hrow.
  destruct (process_vote env context user_id project_id w1) as [r2 w2] eqn:E2.
  intros Hr1. specialize (Hrow Hr1).
  rewrite process_vote_old in E2 by done. by injection E2 as <- <-.
Qed.

Lemma repeated_vote_is_rejected_witness :
  let '(r1, w1) := process_vote fussy_env (demo_context 11) 11 7 (world_of demo_db) in
  let '(r2, w2) := process_vote fussy_env (demo_context 11) 11 7 w1 in
  db w2 = db w1 /\
  trace w2 = trace w1 ++ [ApiCall (SendMessage 11 msg_already_voted None None)].
Proof.
  pose proof (repeated_vote_is_rejected fussy_env (demo_context 11) 11 7
                (world_of demo_db)) as H.
  destruct (process_vote fussy_env (demo_context 11) 11 7 (world_of demo_db))
    as [r1 w1] eqn:E1.
  destruct (process_vote fussy_env (demo_context 11) 11 7 w1) as [r2 w2].
  apply H; [unfold Sql.fits; lia | unfold Sql.fits; lia |].
  vm_compute in E1. by injection E1 as <- _.
Defined.

(** ** More on market trends *)

#[global] Instance no_http_since_frame : Frame no_http_since.
Proof.
  split.
  - intros w. exists []. by rewrite app_nil_r.
  - intros w1 w2 w3 (evs1 & H1 & F1) (evs2 & H2 & F2). exists (evs1 ++ evs2).
    split; [by rewrite H2, H1, <- app_assoc | by apply Forall_app].
  - intros w w' (evs & H & F). by exists evs.
Qed.

Lemma no_http_call_api env c : respects no_http_since (call_api env c).
Proof.
  intros w. unfold call_api.
  destruct (api_fault _ _ _); exists [ApiCall c]; split; try done; by constructor.
Qed.

Lemma no_http_logger_error r : respects no_http_since (logger_error r).
Proof. intros w. exists []. by rewrite app_nil_r. Qed.

Ltac no_http_tac :=
  repeat first [ respects_step | apply no_http_call_api | apply no_http_logger_error ].

Lemma http_requests_app tr tr' : http_requests (tr ++ tr') = http_requests tr ++ http_requests tr'.
Proof. apply List.filter_app. Qed.

Lemma http_requests_none evs :
  Forall (fun ev => is_http ev = false) evs -> http_requests evs = [].
Proof.
  induction 1 as [|ev evs Hev _ IH]; [done|]. unfold http_requests in *. simpl.
  by rewrite Hev.
Qed.

(** X12. [crypto_trends] asks the market-data endpoint exactly once, with the
    same URL, parameters and timeout of 10, whatever the answer and
    whatever Telegram does afterwards: there is no retry on any path. *)
Theorem crypto_trends_single_request env update context w :
  http_requests (trace (snd (crypto_trends env update context w))) =
  http_requests (trace w) ++ [HttpGet markets_url trends_params 10].
Proof.
  assert (Hrest : forall response,
             respects no_http_since
               (raise_for_status response;;
                trends ← lift (decoded ← body response;
                               coins ← json_iter decoded;
                               map_result (trend_line env) coins);
                message ← getattr (upd_message update);
                reply_text env message (msg_trends trends) None None)).
  { intros response. unfold raise_for_status, reply_text. no_http_tac. }
  assert (Hhandler : forall e,
             respects no_http_since
               (if is_RequestException e
                then logger_error (TrendsApiError e);;
                     message ← getattr (upd_message update);
                     reply_text env message msg_trends_fallback None None
                else raise e)).
  { intros e. unfold reply_text. no_http_tac. }
  assert (Hgoal : no_http_since (record (HttpGet markets_url trends_params 10) w)
                                (snd (crypto_trends env update context w))).
  { unfold crypto_trends, try_except.
    unfold mbind at 1. unfold M_bind at 1. unfold requests_get. fold markets_url.
    destruct (http_get env _ _ _ _) as [response|e].
    - specialize (Hrest response (record (HttpGet markets_url trends_params 10) w)).
      match goal with
      | |- context [match ?t with (_, _) => _ end] => destruct t as [[[]|e] w1]
      end; simpl in *; [done|].
      eapply frame_trans; [exact Hrest | apply Hhandler].
    - apply Hhandler. }
  destruct Hgoal as (evs & -> & Hevs). simpl.
  rewrite !http_requests_app, (http_requests_none evs Hevs), app_nil_r. reflexivity.
Qed.

Lemma map_result_length {A B : Type} (f : A -> result B) l bs :
  map_result f l = Ok bs -> length bs = length l.
Proof.
  revert bs. induction l as [|a l IH]; intros bs; simpl.
  - by intros [= <-].
  - unfold mbind, result_bind. destruct (f a) as [b|e]; [|done].
    destruct (map_result f l) as [bs'|e]; [|done].
    intros [= <-]. simpl. f_equal. by apply IH.
Qed.



(** X14. Only [requests.RequestException] is caught.  When the endpoint
    answers with an accepted status but building the lines raises anything
    else (a coin without a field, a body that is not a list, a value that
    cannot be formatted), that exception leaves [crypto_trends]: the user
    gets no reply, not even the fallback, and nothing is logged. *)
Theorem crypto_trends_other_errors_escape env update context response e w :
  let n := length (trace w) in
  http_get env n markets_url trends_params 10 = Ok response ->
  (400 <=? status_code response) && (status_code response <? 600) = false ->
  decode_trends env response = Raise e ->
  is_RequestException e = false ->
  crypto_trends env update context w =
    (Raise e, record (HttpGet markets_url trends_params 10) w).
Proof.
  intros n Hget Hstatus Hlines Hkind. subst n.
  unfold crypto_trends, try_except.
  unfold mbind at 1. unfold M_bind at 1. unfold requests_get. fold markets_url.
  rewrite Hget. unfold raise_for_status. rewrite Hstatus.
  unfold decode_trends in Hlines.
  unfold mbind at 1. unfold M_bind at 1. unfold mret at 1. unfold M_ret at 1.
  unfold mbind at 1. unfold M_bind at 1. unfold lift. rewrite Hlines.
  by rewrite Hkind.
Qed.

Lemma crypto_trends_other_errors_escape_witness :
  let answer := Ok (mkResponse 200 (Ok (JArray [JObject [("symbol", JString "btc")]]))) in
  crypto_trends (market_env answer) (text_message "/trends" 42) (demo_context 42)
                (world_of demo_db) =
  (Raise (KeyError "current_price"),
   record (HttpGet markets_url trends_params 10) (world_of demo_db)).
Proof.
  apply (crypto_trends_other_errors_escape
           (market_env (Ok (mkResponse 200 (Ok (JArray [JObject [("symbol", JString "btc")]])))))
           (text_message "/trends" 42) (demo_context 42)
           (mkResponse 200 (Ok (JArray [JObject [("symbol", JString "btc")]])))
           (KeyError "current_price") (world_of demo_db));
    reflexivity.
Defined.

(** A rate-limit answer that is a JSON object, had it come with status 200:
    iterating it yields its keys, and indexing a key raises [TypeError]. *)
Example trends_body_is_an_object :
  decode_trends (market_env (Raise ValueError))
                (mkResponse 200 (Ok (JObject [("status", JObject [])]))) =
  Raise TypeError.
Proof. reflexivity. Qed.

(** ** More on service submission *)

Lemma fold_max_above (seq : Z) (ids : list Z) :
  seq <= fold_right Z.max seq ids /\ forall i, i ∈ ids -> i <= fold_right Z.max seq ids.
Proof.
  induction ids as [|j ids [IHseq IHids]]; simpl.
  - split; [lia|]. intros i Hin. by apply elem_of_nil in Hin.
  - split; [lia|]. intros i [-> | Hin]%elem_of_cons; [lia|].
    specialize (IHids i Hin). lia.
Qed.

Lemma next_service_id_above d :
  seq_services d < Sql.next_service_id d /\
  forall s, s ∈ services d -> s_id s < Sql.next_service_id d.
Proof.
  unfold Sql.next_service_id.
  destruct (fold_max_above (seq_services d) (map s_id (services d))) as [Hseq Hids].
  split; [lia|]. intros s Hs.
  assert (s_id s ∈ map s_id (services d)) as Hin by (apply list_elem_of_fmap; eauto).
  specialize (Hids _ Hin). lia.
Qed.

(** X15. Every submission gets an id never used before.  As long as the
    submitter's id and the next rowid are integers SQLite stores, the row
    [submit_service] appends has an id above every id in the table and
    above the largest id ever handed out, which it then becomes; so ids
    stay pairwise distinct.  The row carries the submitter, is active by
    default and has no price. *)
Theorem submit_service_fresh_id env context user_id service_type description w :
  Sql.fits user_id ->
  Sql.fits (Sql.next_service_id (db w)) ->
  let w' := snd (submit_service env context user_id service_type description w) in
  exists row,
    services (db w') = services (db w) ++ [row] /\
    (forall s, s ∈ services (db w) -> s_id s < s_id row) /\
    seq_services (db w) < s_id row /\
    seq_services (db w') = s_id row /\
    (s_user_id row, s_service_type row, s_description row) =
      (user_id, service_type, Some description) /\
    s_is_active row = Some 1 /\
    s_price row = None /\
    (NoDup (map s_id (services (db w))) -> NoDup (map s_id (services (db w')))).
Proof.
  intros _ _ w'. subst w'.
  destruct (submit_service_run env context user_id service_type description w)
    as (w' & Hrun & Hdb & Hrow & _).
  rewrite Hrun. simpl. cbv zeta in Hdb, Hrow.
  destruct (next_service_id_above (db w)) as [Hseq Hids].
  eexists. split; [exact Hrow|]. split; [exact Hids|]. split; [exact Hseq|].
  split; [by rewrite Hdb|]. do 3 (split; [reflexivity|]).
  intros Hnd. rewrite Hrow, map_app. apply NoDup_app. split; [done|].
  split; [|apply NoDup_singleton].
  intros i (s & -> & Hs)%list_elem_of_fmap Hin. simpl in Hin.
  apply list_elem_of_singleton in Hin. specialize (Hids s Hs). simpl in Hin. lia.
Qed.

Lemma submit_service_fresh_id_witness :
  let w := world_of (mkDB [] [mkService 3 7 "dev" None None (Some 1) None] [] [] 5) in
  let w' := snd (submit_service (calm_env []) (demo_context 42) 42 "design" "logo" w) in
  map s_id (services (db w')) = [3; 6] /\
  seq_services (db w') = 6 /\
  NoDup (map s_id (services (db w'))).
Proof.
  destruct (submit_service_fresh_id (calm_env []) (demo_context 42) 42 "design" "logo"
              (world_of (mkDB [] [mkService 3 7 "dev" None None (Some 1) None] [] [] 5)))
    as (row & Hrows & _ & _ & Hseq & _ & _ & _ & Hnd).
  { unfold Sql.fits. lia. }
  { unfold Sql.fits, Sql.next_service_id. simpl fold_right. lia. }
  split; [reflexivity|]. split; [reflexivity|].
  apply Hnd. simpl. apply NoDup_singleton.
Defined.

(** An id freed by a deletion is not handed out again. *)
Example deleted_id_is_not_reused :
  map s_id (services (Sql.insert_service (mkDB [] [] [] [] 5) 42 "dev" "x" EmptyString)) = [6].
Proof. reflexivity. Qed.

(** ** Tags that carry a prefix and nothing usable after it *)

Lemma int_of_ascii_error s e : int_of_ascii s = Raise e -> e = ValueError.
Proof.
  unfold int_of_ascii. cbv zeta.
  match goal with
  | |- match ?parsed with _ => _ end = _ -> _ => destruct parsed
  end; congruence.
Qed.

(** X17. A tag that starts with [vote_] and goes on with a text that [int]
    rejects makes [button_handler] raise what [int] raised, which for an
    ASCII text is [ValueError]; a tag that starts with [service_] but does
    not continue with a key of [SERVICE_TYPES] makes it raise [KeyError]
    for that remainder.  In both cases the acknowledgement is the only
    request sent and database, flags and log are what they were. *)
Theorem button_handler_malformed_tag env update context query w :
  upd_callback_query update = Some query ->
  api_fault env (length (trace w)) (AnswerCallbackQuery query) = None ->
  let data := cq_data query in
  let acked := record (ApiCall (AnswerCallbackQuery query)) w in
  (startswith data "vote_" = true ->
   forall e, int_of_str (unicode_int env) (slice_from 5 data) = Raise e ->
   (is_ascii (slice_from 5 data) = true -> e = ValueError) /\
   button_handler env update context w = (Raise e, acked)) /\
  (startswith data "vote_" = false ->
   startswith data "service_" = true ->
   dict_get SERVICE_TYPES (slice_from 8 data) = None ->
   button_handler env update context w = (Raise (KeyError (slice_from 8 data)), acked)).
Proof.
  intros Hq Hack data acked. subst data acked. split.
  - intros Hvote e He. split.
    + intros Hascii. unfold int_of_str in He. rewrite Hascii in He.
      by apply int_of_ascii_error in He.
    + enter_button_handler Hq. rewrite Hack, Hvote.
      unfold mbind, M_bind, lift. by rewrite He.
  - intros Hvote Hservice Hkey. enter_button_handler Hq. rewrite Hack, Hvote, Hservice.
    unfold dict_index. rewrite Hkey. reflexivity.
Qed.

Lemma button_handler_malformed_tag_witness :
  button_handler (calm_env []) (press "vote_" 42) (demo_context 42) (world_of demo_db) =
    (Raise ValueError,
     record (ApiCall (AnswerCallbackQuery (mkCallbackQuery "cbq" "vote_" 42)))
            (world_of demo_db)) /\
  button_handler (calm_env []) (press "service_nft" 42) (demo_context 42) (world_of demo_db) =
    (Raise (KeyError "nft"),
     record (ApiCall (AnswerCallbackQuery (mkCallbackQuery "cbq" "service_nft" 42)))
            (world_of demo_db)).
Proof.
  split.
  - destruct (button_handler_malformed_tag (calm_env []) (press "vote_" 42)
                (demo_context 42) (mkCallbackQuery "cbq" "vote_" 42) (world_of demo_db)
                eq_refl eq_refl) as [Hvote _].
    destruct (Hvote eq_refl ValueError eq_refl) as [_ Hrun]. exact Hrun.
  - destruct (button_handler_malformed_tag (calm_env []) (press "service_nft" 42)
                (demo_context 42) (mkCallbackQuery "cbq" "service_nft" 42) (world_of demo_db)
                eq_refl eq_refl) as [_ Hservice].
    apply Hservice; reflexivity.
Defined.

(** A tag with the prefix [vote_] whose remainder [int] accepts is a vote
    for what [int] returns. *)
Lemma button_handler_vote_tag env update context query project_id w :
  upd_callback_query update = Some query ->
  startswith (cq_data query) "vote_" = true ->
  int_of_str (unicode_int env) (slice_from 5 (cq_data query)) = Ok project_id ->
  api_fault env (length (trace w)) (AnswerCallbackQuery query) = None ->
  button_handler env update context w =
  process_vote env context (cq_from_user query) project_id
               (record (ApiCall (AnswerCallbackQuery query)) w).
Proof.
  intros Hq Hvote Hint Hack. enter_button_handler Hq. rewrite Hack, Hvote.
  unfold mbind, M_bind, lift. by rewrite Hint.
Qed.

(** A tag in another script's digits: what happens is what the interpreter
    makes of it.  If it reads the fullwidth seven as 7, the press is a vote
    for project 7. *)
Example fullwidth_vote_tag env :
  api_fault env 0 (AnswerCallbackQuery (mkCallbackQuery "cbq" "vote_７" 42)) = None ->
  unicode_int env "７" = Ok 7 ->
  button_handler env (press "vote_７" 42) (demo_context 42) (world_of demo_db) =
  process_vote env (demo_context 42) 42 7
               (record (ApiCall (AnswerCallbackQuery (mkCallbackQuery "cbq" "vote_７" 42)))
                       (world_of demo_db)).
Proof.
  intros Hack Hint.
  by apply (button_handler_vote_tag env (press "vote_７" 42) (demo_context 42)
              (mkCallbackQuery "cbq" "vote_７" 42) 7 (world_of demo_db)).
Qed.

(** ** Updates that cannot be read, and nobody to notify *)

(** X19. The two submitting handlers read the update before they write.
    With a category pending, [handle_service_description] on an update
    without a message or without a user raises [AttributeError], inserts
    nothing and leaves the flag pending.  [promote_service] with arguments
    but no user does the same.  With a user but no message to reply to, it
    raises only after the service was stored and the administrators were
    tried: the row stays. *)
Theorem unreadable_updates env update context category w :
  (the_user_data context w !! "awaiting_service" = Some category ->
   upd_message update = None \/ upd_effective_user update = None ->
   handle_service_description env update context w = (Raise AttributeError, w)) /\
  (ctx_args context <> [] ->
   upd_effective_user update = None ->
   promote_service env update context w = (Raise AttributeError, w)) /\
  (ctx_args context <> [] ->
   forall user, upd_effective_user update = Some user ->
   upd_message update = None ->
   exists w1,
     submit_service env context user "custom" (join " " (ctx_args context)) w = (Ok tt, w1) /\
     promote_service env update context w = (Raise AttributeError, w1)).
Proof.
  split; [|split].
  - intros Hflag Hmissing. unfold handle_service_description.
    rewrite bind_get_user_data, Hflag.
    destruct (upd_message update) as [message|]; [|done].
    destruct Hmissing as [? | Huser]; [done|]. by rewrite bind_getattr, Huser.
  - intros Hargs Huser. unfold promote_service.
    destruct (ctx_args context); [done|]. by rewrite Huser.
  - intros Hargs user Huser Hmsg.
    destruct (submit_service_run env context user "custom"
                (join " " (ctx_args context)) w) as (w1 & Hrun & _).
    exists w1. split; [exact Hrun|]. unfold promote_service.
    destruct (ctx_args context) eqn:E; [done|].
    rewrite Huser, bind_getattr. unfold mbind at 1. unfold M_bind at 1.
    by rewrite Hrun, Hmsg.
Qed.

Lemma unreadable_updates_witness :
  let pending := snd (button_handler (calm_env []) (press "service_dev" 42)
                                     (demo_context 42) (world_of demo_db)) in
  handle_service_description (calm_env []) (mkUpdate None None (Some 42))
                             (demo_context 42) pending =
    (Raise AttributeError, pending) /\
  services (db (snd (promote_service (calm_env []) (mkUpdate None None (Some 42))
                                     (mkContext 42 ["audits"]) (world_of demo_db)))) =
    [mkService 1 42 "custom" (Some "audits") None (Some 1) (Some "2024-05-01 12:00:00")].
Proof.
  split.
  - destruct (unreadable_updates (calm_env []) (mkUpdate None None (Some 42))
                (demo_context 42) "dev"
                (snd (button_handler (calm_env []) (press "service_dev" 42)
                                     (demo_context 42) (world_of demo_db))))
      as (H & _ & _).
    apply H; [reflexivity | by left].
  - destruct (unreadable_updates (calm_env []) (mkUpdate None None (Some 42))
                (mkContext 42 ["audits"]) "dev" (world_of demo_db)) as (_ & _ & H).
    destruct (H ltac:(discriminate) 42 eq_refl eq_refl) as (w1 & Hrun & Hpromote).
    rewrite Hpromote. simpl. vm_compute in Hrun. by injection Hrun as <-.
Defined.

(** X20. With no administrator configured, a submission contacts nobody and
    the submitter is still told that the service went to the admins: the
    row is stored, the flag is consumed, and the confirmation is the only
    request sent. *)
Theorem submission_without_admins env update context message user category w :
  ADMIN_IDS env = [] ->
  the_user_data context w !! "awaiting_service" = Some category ->
  upd_message update = Some message ->
  upd_effective_user update = Some user ->
  let confirmation := SendMessage (msg_chat_id message) msg_service_submitted None None in
  let '(r, w') := handle_service_description env update context w in
  trace w' = trace w ++ [ApiCall confirmation] /\
  log w' = log w /\
  services (db w') =
    services (db w) ++
    [service_row (db w) user category (msg_text message)
                 (current_timestamp env (length (trace w)))] /\
  the_user_data context w' !! "awaiting_service" = None.
Proof.
  intros Hadmins Hflag Hmsg Huser confirmation. subst confirmation.
  destruct (handle_service_description_pending env update context message user category w
              Hflag Hmsg Huser) as (w1 & Hrun & Hstep).
  cbv zeta in Hstep. rewrite Hstep.
  assert (Hw1 : w1 = set_db (Sql.insert_service (db w) user category (msg_text message)
                               (current_timestamp env (length (trace w)))) w).
  { unfold submit_service in Hrun. rewrite Hadmins in Hrun. simpl in Hrun.
    by injection Hrun as <-. }
  subst w1. simpl. split; [done|]. split; [done|]. split; [done|].
  unfold the_user_data. simpl. rewrite lookup_insert_eq. simpl. apply lookup_delete_eq.
Qed.

Lemma submission_without_admins_witness :
  let pending := snd (button_handler (calm_env []) (press "service_dev" 42)
                                     (demo_context 42) (world_of demo_db)) in
  let '(r, w') := handle_service_description (calm_env []) (text_message "build me a dapp" 42)
                                             (demo_context 42) pending in
  trace w' = trace pending ++ [ApiCall (SendMessage 42 msg_service_submitted None None)] /\
  log w' = [] /\
  services (db w') =
    [mkService 1 42 "dev" (Some "build me a dapp") None (Some 1)
               (Some "2024-05-01 12:00:00")] /\
  the_user_data (demo_context 42) w' !! "awaiting_service" = None.
Proof.
  apply (submission_without_admins (calm_env []) (text_message "build me a dapp" 42)
           (demo_context 42) (mkMessage 42 "build me a dapp") 42 "dev"
           (snd (button_handler (calm_env []) (press "service_dev" 42)
                                (demo_context 42) (world_of demo_db))));
    reflexivity.
Defined.
